(** * sessionCollector: the session lifecycle of [functions/sessionCollector.js]

    A shallow embedding of the serverless handler of the repository and of the
    part of the JavaScript runtime and of the Firestore client it relies on,
    followed by the properties of the session lifecycle.

    Conventions of the embedding.
    - JavaScript values are the values [JSON.parse] produces, plus
      [undefined] (what reading an absent property gives).  A number is
      either a safe integer ([JNum n], with [n] at most 2^53 - 1 in absolute
      value), which [toString] prints with all its digits, or any other
      number, written as [toString] prints it ([JFloat "1e+21"],
      [JFloat "1.5"], and [JFloat "0"] for the negative zero).  An object is
      the list of its fields, with unique keys.
    - Strings are sequences of code units below 256.
    - [JSON.parse] and [process.env.NODE_ENV] are inputs of the handler.
      [JSON.stringify(v)] is kept symbolic: a response body records the value
      that is serialised.
    - The Firestore client is modelled with the documents of every
      [sessions] sub-collection, the server clock that resolves
      [FieldValue.serverTimestamp()], the calls that the store carries out,
      and the arguments that are refused: a resource path that is not valid
      (lines 95-96), a document with an undefined field (line 127) and an
      array union without element (line 140).  What else the client or the
      server refuses in the data of a request (depth, arrays inside arrays,
      field names, sizes) is left to the rules of the store, a part of its
      state of which nothing is assumed.  A refusal raises an exception,
      which the catch-all of lines 213-223 answers with a 500; the message
      of an exception is not modelled.  Failures of the transport are not
      part of the model. *)

From Stdlib Require Import ZArith Strings.String Strings.Ascii Numbers.DecimalString Bool Lia.
From Stdlib Require Import Numbers.DecimalZ Numbers.DecimalPos.
From stdpp Require Import base list.

Set Warnings "-register-all".

Open Scope string_scope.
Open Scope list_scope.

(** ** JavaScript values *)

Inductive JsVal : Type :=
| JUndefined
| JNull
| JBool (b : bool)
| JNum (n : Z)
| JFloat (text : string)
| JStr (s : string)
| JArr (items : list JsVal)
| JObj (fields : list (string * JsVal)).

(** Structural equality of values, as a boolean function. *)
Fixpoint jsval_eqb (a b : JsVal) {struct a} : bool :=
  match a, b with
  | JUndefined, JUndefined => true
  | JNull, JNull => true
  | JBool x, JBool y => Bool.eqb x y
  | JNum x, JNum y => Z.eqb x y
  | JFloat x, JFloat y => String.eqb x y
  | JStr x, JStr y => String.eqb x y
  | JArr xs, JArr ys =>
      (fix go (xs ys : list JsVal) {struct xs} : bool :=
         match xs, ys with
         | [], [] => true
         | x :: xs', y :: ys' => jsval_eqb x y && go xs' ys'
         | _, _ => false
         end) xs ys
  | JObj xs, JObj ys =>
      (fix go (xs ys : list (string * JsVal)) {struct xs} : bool :=
         match xs, ys with
         | [], [] => true
         | (k, x) :: xs', (l, y) :: ys' =>
             String.eqb k l && jsval_eqb x y && go xs' ys'
         | _, _ => false
         end) xs ys
  | _, _ => false
  end.

(** [typeof v === 'number'] and [typeof v === 'string']. *)
Definition typeof_number (v : JsVal) : bool :=
  match v with JNum _ | JFloat _ => true | _ => false end.

Definition typeof_string (v : JsVal) : bool :=
  match v with JStr _ => true | _ => false end.

(** [Array.isArray(v)]. *)
Definition isArray (v : JsVal) : bool :=
  match v with JArr _ => true | _ => false end.

(** The truthiness of a value in a condition ([ToBoolean]). *)
Definition truthy (v : JsVal) : bool :=
  match v with
  | JUndefined | JNull => false
  | JBool b => b
  | JNum n => negb (Z.eqb n 0)
  | JFloat text => negb (String.eqb text "NaN") && negb (String.eqb text "0")
  | JStr s => negb (String.eqb s "")
  | JArr _ | JObj _ => true
  end.

(** [v === s] for a string literal [s]. *)
Definition strict_eq_str (v : JsVal) (s : string) : bool :=
  match v with JStr x => String.eqb x s | _ => false end.

(** Reading the property [key] of an object value; an absent property reads
    as [undefined]. *)
Fixpoint lookup_field (key : string) (fields : list (string * JsVal)) : JsVal :=
  match fields with
  | [] => JUndefined
  | (k, v) :: rest => if String.eqb k key then v else lookup_field key rest
  end.

(** The value is [undefined] or holds [undefined] in an item or a field. *)
Fixpoint has_undefined (v : JsVal) : bool :=
  match v with
  | JUndefined => true
  | JArr items => existsb has_undefined items
  | JObj fields => existsb (fun '(_, x) => has_undefined x) fields
  | _ => false
  end.

(** The equality of values in the store: maps are compared regardless of the
    order of their keys.  [canonical] orders the fields of every object by
    key; two values are equal in the store when their canonical forms are
    the same. *)
Fixpoint insert_field (kv : string * JsVal) (l : list (string * JsVal))
    : list (string * JsVal) :=
  match l with
  | [] => [kv]
  | x :: l' => if String.leb (fst kv) (fst x) then kv :: l else x :: insert_field kv l'
  end.

Definition sort_fields (l : list (string * JsVal)) : list (string * JsVal) :=
  fold_right insert_field [] l.

Fixpoint canonical (v : JsVal) : JsVal :=
  match v with
  | JArr items => JArr (List.map canonical items)
  | JObj fields => JObj (sort_fields (List.map (fun '(k, x) => (k, canonical x)) fields))
  | _ => v
  end.

Definition store_eqb (a b : JsVal) : bool := jsval_eqb (canonical a) (canonical b).

(** ** Strings: [Number.prototype.toString] and [String.prototype.trim] *)

(** What the specification calls the decimal string form of an integer:
    [s] is the decimal numeral of [n] as the Standard Library reads numerals,
    its digits without leading zero, after a minus sign when [n] is
    negative. *)
Definition decimal_string_form (n : Z) (s : string) : Prop :=
  NilZero.int_of_string s = Some (Z.to_int n).

(** [Number.isSafeInteger(n)] for an integer [n]: its absolute value is at
    most 2^53 - 1. *)
Definition is_safe_integer (n : Z) : bool :=
  (Z.abs n <=? 2 ^ 53 - 1)%Z.

(** [n.toString()] of a safe integer: its decimal digits, with a leading
    minus sign when negative. *)
Definition Number_toString (n : Z) : string :=
  NilZero.string_of_int (Z.to_int n).

(** White space and line terminators among the code units below 256: TAB, LF,
    VT, FF, CR, SPACE and NBSP. *)
Definition is_whitespace (c : ascii) : bool :=
  let n := nat_of_ascii c in
  ((9 <=? n)%nat && (n <=? 13)%nat) || (n =? 32)%nat || (n =? 160)%nat.

(** [s.trim()]: the white space at the start, then at the end, is removed. *)
Fixpoint trimStart (s : string) : string :=
  match s with
  | EmptyString => EmptyString
  | String c s' => if is_whitespace c then trimStart s' else s
  end.

Fixpoint trimEnd (s : string) : string :=
  match s with
  | EmptyString => EmptyString
  | String c s' =>
      let t := trimEnd s' in
      if is_whitespace c && String.eqb t "" then EmptyString else String c t
  end.

Definition trim (s : string) : string := trimEnd (trimStart s).

(** Strings without white space, and strings of white space only. *)
Fixpoint no_whitespace (s : string) : bool :=
  match s with
  | EmptyString => true
  | String c s' => negb (is_whitespace c) && no_whitespace s'
  end.

Fixpoint all_whitespace (s : string) : bool :=
  match s with
  | EmptyString => true
  | String c s' => is_whitespace c && all_whitespace s'
  end.

(** ** The document store

    The store holds the documents of all [sessions] sub-collections.  A
    document is addressed by the path [collection(website).doc(fingerprint)]
    of its sub-collection and by its identifier inside it; the identifier the
    store generates for a new document is its position in [docs], so that a
    document reference ([sessionRef], [lastSessionDoc.ref]) is an index into
    [docs].  [serverTime] is the server clock: a write is stamped with it
    and moves it forward, so that no two writes carry the same timestamp. *)

Definition Timestamp := nat.

(** The fields of a session document, as written at line 127. *)
Record SessionData := mkSessionData {
  apiKey : JsVal;
  tinyCode : JsVal;
  startedAt : Timestamp;
  lastActivity : Timestamp;
  endedAt : option Timestamp;        (* [None] is [null] *)
  dataBatches : list JsVal
}.

Record SessionDoc := mkSessionDoc {
  doc_website : JsVal;               (* the argument of [db.collection] *)
  doc_fingerprint : string;          (* the argument of [.doc] *)
  doc_data : SessionData
}.

(** The rules of the store on the data of a request, beyond the checks
    modelled below: whether the client and the server accept the document of
    a [set], and the elements of an array union. *)
Record Rules := mkRules {
  valid_document : SessionData -> bool;
  valid_elements : list JsVal -> bool
}.

Record Firestore := mkFirestore {
  docs : list SessionDoc;
  serverTime : Timestamp;
  rules : Rules
}.

(** The calls that the store carries out in one invocation, in order; a
    refused call is not one of them. *)
Inductive StoreOp : Type :=
| QueryLatest (website : JsVal) (fingerprint : string)
| DocSet (ref : nat)
| DocUpdate (ref : nat)
| DocGet (ref : nat).

Definition is_write (op : StoreOp) : bool :=
  match op with
  | DocSet _ | DocUpdate _ => true
  | QueryLatest _ _ | DocGet _ => false
  end.

(** Code that calls the store: a state monad over [Firestore] that also
    records the calls. *)
Definition Store (A : Type) : Type := Firestore -> A * Firestore * list StoreOp.

Definition ret {A : Type} (a : A) : Store A := fun st => (a, st, []).

Definition bind {A B : Type} (m : Store A) (k : A -> Store B) : Store B :=
  fun st =>
    let '(a, st1, ops1) := m st in
    let '(b, st2, ops2) := k a st1 in
    (b, st2, ops1 ++ ops2).

Notation "x <- m ;; k" := (bind m (fun x => k))
  (at level 100, m at next level, right associativity).

(** *** Resource paths

    [db.collection(websiteName).doc(fingerprint).collection('sessions')],
    lines 95-96.  A resource path must be a non-empty string without [//];
    its segments are separated by [/], a [/] at the start or at the end
    being allowed; a collection has an odd number of segments, a document an
    even one.  The result is the list of the segments of the sub-collection,
    or [None] when the client throws. *)

Fixpoint split_path (current path : string) : list string :=
  match path with
  | EmptyString => [current]
  | String c rest =>
      if Ascii.eqb c "/" then current :: split_path EmptyString rest
      else split_path (current ++ String c EmptyString) rest
  end.

Definition path_segments (path : string) : list string :=
  List.filter (fun segment => negb (String.eqb segment "")) (split_path "" path).

Fixpoint has_double_slash (s : string) : bool :=
  match s with
  | EmptyString => false
  | String c tl =>
      match tl with
      | EmptyString => false
      | String d _ => (Ascii.eqb c "/" && Ascii.eqb d "/") || has_double_slash tl
      end
  end.

Definition validateResourcePath (resourcePath : JsVal) : option string :=
  match resourcePath with
  | JStr path => if String.eqb path "" || has_double_slash path then None else Some path
  | _ => None
  end.

Definition sessionsCollRef (websiteName : JsVal) (fingerprint : string)
    : option (list string) :=
  match validateResourcePath websiteName with
  | None => None
  | Some collectionPath =>
      let collection := path_segments collectionPath in
      if negb (Nat.odd (length collection)) then None
      else
        match validateResourcePath (JStr fingerprint) with
        | None => None
        | Some documentPath =>
            let document := collection ++ path_segments documentPath in
            if negb (Nat.even (length document)) then None
            else Some (document ++ ["sessions"])
        end
  end.

Fixpoint path_eqb (p q : list string) : bool :=
  match p, q with
  | [], [] => true
  | x :: p', y :: q' => String.eqb x y && path_eqb p' q'
  | _, _ => false
  end.

(** The sub-collection that holds a document. *)
Definition doc_path (d : SessionDoc) : option (list string) :=
  sessionsCollRef (doc_website d) (doc_fingerprint d).

(** The document [d] is in the sub-collection named by [website] and
    [fingerprint]. *)
Definition at_path (website : JsVal) (fingerprint : string) (d : SessionDoc) : bool :=
  match sessionsCollRef website fingerprint, doc_path d with
  | Some p, Some q => path_eqb q p
  | _, _ => false
  end.

(** The first document of [orderBy('startedAt', 'desc')] among the documents
    of [l] at the given path, [l] being the documents from position [i] on.
    Between two documents with the same [startedAt] the one generated later
    comes first. *)
Fixpoint latest_from (i : nat) (l : list SessionDoc) (website : JsVal)
    (fingerprint : string) : option (nat * SessionData) :=
  match l with
  | [] => None
  | d :: l' =>
      let rest := latest_from (S i) l' website fingerprint in
      if at_path website fingerprint d then
        match rest with
        | Some (j, e) =>
            if (startedAt (doc_data d) <=? startedAt e)%nat then rest
            else Some (i, doc_data d)
        | None => Some (i, doc_data d)
        end
      else rest
  end.

Definition latest (st : Firestore) (website : JsVal) (fingerprint : string)
    : option (nat * SessionData) :=
  latest_from 0 (docs st) website fingerprint.

(** *** Exceptions

    What the handler catches at line 213, named after the step that throws:
    the destructuring of [null] at line 69, [collection] or [doc] at lines
    95-96, [set] at line 127, [arrayUnion] at line 140, [update] at lines
    138-146. *)
Inductive Exception : Type :=
| DestructureNull
| InvalidResourcePath
| SetRefused
| ArrayUnionWithoutElement
| UpdateRefused.

(** Code that may throw: the result is an exception or a value. *)
Definition Try (A : Type) : Type := Store (Exception + A).

Definition ok {A : Type} (a : A) : Try A := ret (inr a).

Definition throw {A : Type} (e : Exception) : Try A := ret (inl e).

Definition lift {A : Type} (m : Store A) : Try A := a <- m ;; ok a.

Definition try_bind {A B : Type} (m : Try A) (k : A -> Try B) : Try B :=
  x <- m ;;
  match x with
  | inl e => throw e
  | inr a => k a
  end.

Notation "x <-? m ;; k" := (try_bind m (fun x => k))
  (at level 100, m at next level, right associativity).

(** *** The calls on the store *)

(** [sessionsCollRef.orderBy('startedAt', 'desc').limit(1).get()]: [None] is
    the empty snapshot, [Some (ref, data)] stands for [docs[0]] with its
    [ref] and its [data()]. *)
Definition query_latest (website : JsVal) (fingerprint : string)
    : Store (option (nat * SessionData)) :=
  fun st => (latest st website fingerprint, st, [QueryLatest website fingerprint]).

(** [set] refuses a document when one of its fields is or holds
    [undefined], and when the rules of the store are against it. *)
Definition set_refuses (st : Firestore) (fields : SessionData) : bool :=
  has_undefined (apiKey fields) || has_undefined (tinyCode fields)
  || existsb has_undefined (dataBatches fields)
  || negb (valid_document (rules st) fields).

(** [sessionsCollRef.doc()] followed by [sessionRef.set(fields)]: an
    exception when the document is refused; otherwise a document with a fresh
    identifier is created; [fields] receives the value of
    [FieldValue.serverTimestamp()]. *)
Definition doc_set (website : JsVal) (fingerprint : string)
    (fields : Timestamp -> SessionData) : Try nat :=
  fun st =>
    let ref := length (docs st) in
    let now := serverTime st in
    if set_refuses st (fields now) then (inl SetRefused, st, [])
    else
      (inr ref,
       mkFirestore (docs st ++ [mkSessionDoc website fingerprint (fields now)]) (S now)
         (rules st),
       [DocSet ref]).

(** [sessionRef.update(changes)]: the fields of the document are changed in
    one step; [changes] receives the value of
    [FieldValue.serverTimestamp()] and the current fields.  What an update
    may refuse is the array union it carries, see [arrayUnion]; the update
    of line 191 carries timestamps only. *)
Definition doc_update (ref : nat) (changes : Timestamp -> SessionData -> SessionData)
    : Store unit :=
  fun st =>
    let now := serverTime st in
    let change d :=
      mkSessionDoc (doc_website d) (doc_fingerprint d) (changes now (doc_data d)) in
    (tt, mkFirestore (alter change ref (docs st)) (S now) (rules st), [DocUpdate ref]).

(** [(await sessionRef.get()).data()]. *)
Definition doc_get (ref : nat) : Store (option SessionData) :=
  fun st => (doc_data <$> docs st !! ref, st, [DocGet ref]).

(** What the store does with an array union: each element that is not
    equal to a value of the array is added at its end. *)
Fixpoint union_into (arr elements : list JsVal) : list JsVal :=
  match elements with
  | [] => arr
  | e :: rest =>
      union_into (if existsb (store_eqb e) arr then arr else arr ++ [e]) rest
  end.

(** Why an array union is refused, when it is: [arrayUnion] throws when it
    has no element, and [update] refuses the union when an element is or
    holds [undefined], and when the rules of the store are against the
    elements. *)
Definition arrayUnion_refusal (st : Firestore) (elements : list JsVal)
    : option Exception :=
  match elements with
  | [] => Some ArrayUnionWithoutElement
  | _ :: _ =>
      if existsb has_undefined elements || negb (valid_elements (rules st) elements)
      then Some UpdateRefused
      else None
  end.

(** [FieldValue.arrayUnion(...elements)] as a field of [update]: an
    exception when the union is refused, in which case the store carries out
    no call; otherwise the change of the array. *)
Definition arrayUnion (elements : list JsVal) : Try (list JsVal -> list JsVal) :=
  fun st =>
    match arrayUnion_refusal st elements with
    | Some err => (inl err, st, [])
    | None => (inr (fun arr => union_into arr elements), st, [])
    end.

(** ** The handler *)

Definition Headers := list (string * string).

(** The body of a response: the empty string, [JSON.stringify(v)] for a
    value [v], [JSON.stringify({message, session})] for the fields [session]
    read back from the store, or
    [JSON.stringify({error: "Internal Server Error", details: err.message})]
    for the exception [err], whose message is not modelled. *)
Inductive Body : Type :=
| EmptyBody
| Stringify (v : JsVal)
| StringifySession (message : string) (session : option SessionData)
| StringifyError (err : Exception).

Record Response := mkResponse {
  statusCode : nat;
  headers : Headers;
  body : Body
}.

Record Event := mkEvent {
  httpMethod : string;
  event_headers : option (list (string * string));
  event_body : option string
}.

(** [a || b] on strings that may be [undefined] or [null] ([None]). *)
Definition or_string (a b : option string) : option string :=
  match a with
  | Some s => if String.eqb s "" then b else a
  | None => b
  end.

(** [event.headers?.name]. *)
Definition header_of (hs : option (list (string * string))) (name : string)
    : option string :=
  match hs with
  | None => None
  | Some l => snd <$> find (fun kv => String.eqb (fst kv) name) l
  end.

Definition includes (l : list string) (x : option string) : bool :=
  match x with
  | Some s => existsb (String.eqb s) l
  | None => false
  end.

(** [getCorsHeaders(origin)], lines 22-41; [NODE_ENV] is
    [process.env.NODE_ENV]. *)
Definition getCorsHeaders (NODE_ENV : option string) (origin : option string) : Headers :=
  let allowedOrigins := ["http://127.0.0.1:5501"; "http://localhost:5501"] in
  let allowedOrigin :=
    if includes allowedOrigins origin then origin
    else if match NODE_ENV with Some e => String.eqb e "development" | None => false end
         then Some "*" else None in
  [ ("Access-Control-Allow-Origin", default "*" (or_string allowedOrigin (Some "*")));
    ("Access-Control-Allow-Headers", "Content-Type, Authorization, Accept");
    ("Access-Control-Allow-Methods", "POST, OPTIONS, GET");
    ("Access-Control-Max-Age", "86400");
    ("Content-Type", "application/json") ].

(** The variables bound by the destructuring of line 69. *)
Record Request := mkRequest {
  req_apiKey : JsVal;
  req_tinyCode : JsVal;
  req_fingerprint : JsVal;
  req_data : JsVal;
  req_action : JsVal;
  req_websiteName : JsVal
}.

(** [let { apiKey, tinyCode, fingerprint, data, action, websiteName } = body]:
    destructuring [null] or [undefined] throws, a value that is not an
    object has none of the six properties. *)
Definition destructure (parsed : JsVal) : option Request :=
  match parsed with
  | JUndefined | JNull => None
  | JObj fields =>
      Some (mkRequest (lookup_field "apiKey" fields) (lookup_field "tinyCode" fields)
              (lookup_field "fingerprint" fields) (lookup_field "data" fields)
              (lookup_field "action" fields) (lookup_field "websiteName" fields))
  | _ => Some (mkRequest JUndefined JUndefined JUndefined JUndefined JUndefined JUndefined)
  end.

Definition InvalidRequestBody : string := "Invalid JSON in request body".
Definition InvalidFingerprintType : string := "Fingerprint must be a string or number.".
Definition MissingFingerprint : string := "Fingerprint missing.".
Definition NoActiveSession : string := "No active session found for this fingerprint.".
Definition SessionAlreadyEnded : string := "Session has already ended.".

Definition error_body (message : string) : Body :=
  Stringify (JObj [("error", JStr message)]).

(** Lines 71-92: the fingerprint as a trimmed, non-empty string, or the
    message of the rejection. *)
Definition normalizeFingerprint (fingerprint : JsVal) : string + string :=
  match
    (if typeof_number fingerprint then
       match fingerprint with
       | JNum n => Some (Number_toString n)
       | JFloat text => Some text
       | _ => None
       end
     else if negb (typeof_string fingerprint) then None
     else match fingerprint with JStr s => Some s | _ => None end)
  with
  | None => inl InvalidFingerprintType
  | Some fingerprint =>
      let fingerprint := trim fingerprint in
      if String.eqb fingerprint "" then inl MissingFingerprint
      else inr fingerprint
  end.

(** [lastSessionData.endedAt !== null && lastSessionData.endedAt !== undefined];
    the field is never missing, every session being written at line 127. *)
Definition has_ended (lastSessionData : SessionData) : bool :=
  match endedAt lastSessionData with
  | Some _ => true
  | None => false
  end.

(** [Array.isArray(data) ? data : [data]]: the items written by the
    request.  The update of lines 137-147 passes the same items to
    [arrayUnion], spreading [data] when it is an array. *)
Definition items_of (data : JsVal) : list JsVal :=
  if isArray data then match data with JArr items => items | _ => [] end
  else [data].

(** Lines 151-163: the response of the branch that appends or starts. *)
Definition recorded (hdrs : Headers) (newSessionStarted : bool) : Response :=
  mkResponse 200 hdrs
    (Stringify (JObj [("success", JBool true);
                      ("message", JStr (if newSessionStarted
                                        then "Started a new session and recorded data."
                                        else "Added data to the existing active session."));
                      ("newSessionStarted", JBool newSessionStarted)])).

(** Lines 107-163, the branch that appends data or starts a session;
    [latestSessionSnap] is the result of the query of line 99. *)
Definition appendOrStart (hdrs : Headers) (req : Request) (fingerprint : string)
    (latestSessionSnap : option (nat * SessionData)) : Try Response :=
  let data := req_data req in
  let active :=                       (* [sessionRef] when no session is started *)
    match latestSessionSnap with
    | None => None
    | Some (ref, lastSessionData) =>
        if has_ended lastSessionData then None else Some ref
    end in
  let newSessionStarted := match active with None => true | Some _ => false end in
  _ <-? match active with
        | None =>
            _ <-? doc_set (req_websiteName req) fingerprint (fun now =>
                    mkSessionData (req_apiKey req) (req_tinyCode req) now now None
                      (items_of data)) ;;
            ok tt
        | Some sessionRef =>
            union <-? arrayUnion (items_of data) ;;
            lift (doc_update sessionRef (fun now d =>
                    mkSessionData (apiKey d) (tinyCode d) (startedAt d) now (endedAt d)
                      (union (dataBatches d))))
        end ;;
  ok (recorded hdrs newSessionStarted).

(** Lines 170-203, the branch that ends the session. *)
Definition endSession (hdrs : Headers) (req : Request) (fingerprint : string)
    : Try Response :=
  latestSessionSnapForEnd <-? lift (query_latest (req_websiteName req) fingerprint) ;;
  match latestSessionSnapForEnd with
  | None => ok (mkResponse 404 hdrs (error_body NoActiveSession))
  | Some (sessionRef, lastSessionData) =>
      if has_ended lastSessionData then
        ok (mkResponse 400 hdrs (error_body SessionAlreadyEnded))
      else
        _ <-? lift (doc_update sessionRef (fun now d =>
                      mkSessionData (apiKey d) (tinyCode d) (startedAt d) now (Some now)
                        (dataBatches d))) ;;
        finalSession <-? lift (doc_get sessionRef) ;;
        ok (mkResponse 200 hdrs
              (StringifySession "Session ended. Data stored in Firestore." finalSession))
  end.

(** Lines 206-211. *)
Definition notUpdated (hdrs : Headers) (fingerprint : string) : Response :=
  mkResponse 200 hdrs
    (Stringify (JObj [("message", JStr "Session not updated.");
                      ("fingerprint", JStr fingerprint)])).

(** The condition of line 105 and the condition of line 169. *)
Definition is_append (req : Request) : bool :=
  truthy (req_data req)
  && (negb (truthy (req_action req)) || strict_eq_str (req_action req) "append").

Definition is_end (req : Request) : bool := strict_eq_str (req_action req) "end".

(** Lines 71-211: the body of the [try] once the parsed body is
    destructured.  Lines 95-96 throw when the website name and the
    fingerprint do not name a sub-collection. *)
Definition tryRequest (hdrs : Headers) (req : Request) : Try Response :=
  match normalizeFingerprint (req_fingerprint req) with
  | inl message => ok (mkResponse 400 hdrs (error_body message))
  | inr fingerprint =>
      _ <-? (match sessionsCollRef (req_websiteName req) fingerprint with
             | None => throw InvalidResourcePath
             | Some _ => ok tt
             end) ;;
      latestSessionSnap <-? lift (query_latest (req_websiteName req) fingerprint) ;;
      if is_append req then appendOrStart hdrs req fingerprint latestSessionSnap
      else if is_end req then endSession hdrs req fingerprint
      else ok (notUpdated hdrs fingerprint)
  end.

(** Lines 213-223, the catch-all. *)
Definition internalError (hdrs : Headers) (err : Exception) : Response :=
  mkResponse 500 hdrs (StringifyError err).

Definition catchAll (hdrs : Headers) (block : Try Response) : Store Response :=
  outcome <- block ;;
  ret (match outcome with
       | inl err => internalError hdrs err
       | inr response => response
       end).

(** Lines 71-223: the handler on a destructured request. *)
Definition handleRequest (hdrs : Headers) (req : Request) : Store Response :=
  catchAll hdrs (tryRequest hdrs req).

(** Line 45: [getCorsHeaders(event.headers?.origin || event.headers?.Origin)]. *)
Definition corsHeadersOf (NODE_ENV : option string) (event : Event) : Headers :=
  getCorsHeaders NODE_ENV
    (or_string (header_of (event_headers event) "origin")
               (header_of (event_headers event) "Origin")).

(** [exports.handler], lines 43-224.  [JSON_parse s] is [None] when
    [JSON.parse(s)] throws. *)
Definition handler (JSON_parse : string -> option JsVal) (NODE_ENV : option string)
    (event : Event) : Store Response :=
  let hdrs := corsHeadersOf NODE_ENV event in
  if String.eqb (httpMethod event) "OPTIONS" then ret (mkResponse 204 hdrs EmptyBody)
  else
    match JSON_parse (default "{}" (or_string (event_body event) (Some "{}"))) with
    | None => ret (mkResponse 400 hdrs (error_body InvalidRequestBody))
    | Some parsed =>
        catchAll hdrs
          match destructure parsed with
          | None => throw DestructureNull
          | Some req => tryRequest hdrs req
          end
    end.

(** ** Sequential executions

    A step lets some time pass on the server clock and then serves one
    request; the responses are dropped. *)
Definition elapse (dt : nat) (st : Firestore) : Firestore :=
  mkFirestore (docs st) (dt + serverTime st) (rules st).

Definition step (JSON_parse : string -> option JsVal) (NODE_ENV : option string)
    (st : Firestore) (s : nat * Event) : Firestore :=
  snd (fst (handler JSON_parse NODE_ENV (snd s) (elapse (fst s) st))).

Definition run (JSON_parse : string -> option JsVal) (NODE_ENV : option string)
    (st : Firestore) (steps : list (nat * Event)) : Firestore :=
  fold_left (step JSON_parse NODE_ENV) steps st.

(** The rules that refuse nothing. *)
Definition accept_all : Rules := mkRules (fun _ => true) (fun _ => true).

Definition empty_store : Firestore := mkFirestore [] 0 accept_all.

(** ** Predicates on stores *)

(** Two documents belong to the same fingerprint entry. *)
Definition same_entry (d e : SessionDoc) : Prop :=
  doc_website d = doc_website e /\ doc_fingerprint d = doc_fingerprint e.

Definition is_open (d : SessionDoc) : Prop := endedAt (doc_data d) = None.

(** At most one session of each fingerprint entry is open. *)
Definition at_most_one_open (st : Firestore) : Prop :=
  forall i j di dj,
    docs st !! i = Some di -> docs st !! j = Some dj ->
    same_entry di dj -> is_open di -> is_open dj -> i = j.

(** What sequential executions maintain: every document is in a
    sub-collection, every [startedAt] is in the past of the server clock,
    documents were created at increasing times, and a document followed by a
    younger one of its sub-collection is closed. *)
Definition paths_valid (st : Firestore) : Prop :=
  forall i d, docs st !! i = Some d -> doc_path d <> None.

Definition started_in_past (st : Firestore) : Prop :=
  forall i d, docs st !! i = Some d -> startedAt (doc_data d) < serverTime st.

Definition started_increasing (st : Firestore) : Prop :=
  forall i j di dj,
    i < j -> docs st !! i = Some di -> docs st !! j = Some dj ->
    startedAt (doc_data di) < startedAt (doc_data dj).

Definition superseded_closed (st : Firestore) : Prop :=
  forall i j di dj,
    i < j -> docs st !! i = Some di -> docs st !! j = Some dj ->
    doc_path di = doc_path dj -> ~ is_open di.

Definition store_inv (st : Firestore) : Prop :=
  paths_valid st /\ started_in_past st /\ started_increasing st /\ superseded_closed st.

(** A request, a store with one session of the entry of that request and the
    documents of that store, to run the handler on. *)
Definition sample_request (fingerprint data action : JsVal) : Request :=
  mkRequest (JStr "key") (JStr "tc") fingerprint data action (JStr "site").

(** The same request without [apiKey] and [tinyCode]. *)
Definition untagged_request (fingerprint data action : JsVal) : Request :=
  mkRequest JUndefined JUndefined fingerprint data action (JStr "site").

Definition sample_session (last : Timestamp) (ended : option Timestamp) : SessionData :=
  mkSessionData (JStr "key") (JStr "tc") 0 last ended [JStr "click"].

Definition sample_docs (last : Timestamp) (ended : option Timestamp) : list SessionDoc :=
  [mkSessionDoc (JStr "site") "42" (sample_session last ended)].

Definition sample_store (last : Timestamp) (ended : option Timestamp) (time : Timestamp)
    : Firestore :=
  mkFirestore (sample_docs last ended) time accept_all.

(** A stand-in for [JSON.parse] that knows the empty object only, to run the
    handler on requests without a body. *)
Definition parse_empty_object (s : string) : option JsVal :=
  if String.eqb s "{}" then Some (JObj []) else None.

(** ** Results of an invocation *)

Definition response_of {A : Type} (r : A * Firestore * list StoreOp) : A := fst (fst r).
Definition store_of {A : Type} (r : A * Firestore * list StoreOp) : Firestore := snd (fst r).
Definition calls_of {A : Type} (r : A * Firestore * list StoreOp) : list StoreOp := snd r.

Definition writes (calls : list StoreOp) : list StoreOp :=
  List.filter is_write calls.

(** The value of the header [name] in the headers of a response. *)
Definition header_value (name : string) (hdrs : Headers) : option string :=
  header_of (Some hdrs) name.

(** The request [req] sent with another fingerprint. *)
Definition with_fingerprint (req : Request) (fingerprint : JsVal) : Request :=
  mkRequest (req_apiKey req) (req_tinyCode req) fingerprint (req_data req)
    (req_action req) (req_websiteName req).

(** ** The effect of one request on the store

    What lines 71-211 can do to the store [st] for the request [req]:
    nothing; the [set] of line 127 in a sub-collection whose most recent
    session is absent or closed; the [update] of lines 138-146 or the
    [update] of line 191 on the most recent session of the sub-collection,
    which is open. *)
Inductive Effect (req : Request) (st : Firestore) : Firestore -> Prop :=
| EffectNone : Effect req st st
| EffectStart (fp : string) :
    normalizeFingerprint (req_fingerprint req) = inr fp ->
    is_append req = true ->
    sessionsCollRef (req_websiteName req) fp <> None ->
    (latest st (req_websiteName req) fp = None \/
     exists ref d t, latest st (req_websiteName req) fp = Some (ref, d) /\ endedAt d = Some t) ->
    Effect req st
      (mkFirestore
         (docs st ++
          [mkSessionDoc (req_websiteName req) fp
             (mkSessionData (req_apiKey req) (req_tinyCode req) (serverTime st)
                (serverTime st) None (items_of (req_data req)))])
         (S (serverTime st)) (rules st))
| EffectAppend (fp : string) (ref : nat) (doc : SessionDoc) :
    normalizeFingerprint (req_fingerprint req) = inr fp ->
    is_append req = true ->
    latest st (req_websiteName req) fp = Some (ref, doc_data doc) ->
    docs st !! ref = Some doc ->
    at_path (req_websiteName req) fp doc = true ->
    endedAt (doc_data doc) = None ->
    Effect req st
      (mkFirestore
         (<[ref := mkSessionDoc (doc_website doc) (doc_fingerprint doc)
                     (mkSessionData (apiKey (doc_data doc)) (tinyCode (doc_data doc))
                        (startedAt (doc_data doc)) (serverTime st) None
                        (union_into (dataBatches (doc_data doc))
                           (items_of (req_data req))))]> (docs st))
         (S (serverTime st)) (rules st))
| EffectEnd (fp : string) (ref : nat) (doc : SessionDoc) :
    normalizeFingerprint (req_fingerprint req) = inr fp ->
    is_end req = true ->
    latest st (req_websiteName req) fp = Some (ref, doc_data doc) ->
    docs st !! ref = Some doc ->
    at_path (req_websiteName req) fp doc = true ->
    endedAt (doc_data doc) = None ->
    Effect req st
      (mkFirestore
         (<[ref := mkSessionDoc (doc_website doc) (doc_fingerprint doc)
                     (mkSessionData (apiKey (doc_data doc)) (tinyCode (doc_data doc))
                        (startedAt (doc_data doc)) (serverTime st)
                        (Some (serverTime st)) (dataBatches (doc_data doc)))]> (docs st))
         (S (serverTime st)) (rules st)).

(** ** More predicates on stores *)

(** The timestamps of a session at server time [now]: started no later than
    its last activity, which is in the past, and closed, if it is, at its
    last activity. *)
Definition session_times_ok (now : Timestamp) (d : SessionData) : Prop :=
  startedAt d <= lastActivity d /\ lastActivity d < now /\
  forall t, endedAt d = Some t -> t = lastActivity d.

Definition times_ok (st : Firestore) : Prop :=
  forall i d, docs st !! i = Some d -> session_times_ok (serverTime st) (doc_data d).

(** Every document is filed under a trimmed, non-empty fingerprint. *)
Definition keys_ok (st : Firestore) : Prop :=
  forall i d, docs st !! i = Some d ->
    trim (doc_fingerprint d) = doc_fingerprint d /\ doc_fingerprint d <> "".

(** A stand-in for [JSON.parse] that knows a few literals. *)
Definition parse_literals (s : string) : option JsVal :=
  if String.eqb s "{}" then Some (JObj [])
  else if String.eqb s "null" then Some JNull
  else if String.eqb s "[]" then Some (JArr [])
  else if String.eqb s "true" then Some (JBool true)
  else if String.eqb s "42" then Some (JNum 42)
  else None.

(** Two request bodies as JSON text, a start or append of "click" and an end
    for fingerprint 42 of "site", and [JSON.parse] restricted to them. *)
Definition quoted (s : string) : string :=
  (String (ascii_of_nat 34) s ++ String (ascii_of_nat 34) EmptyString)%string.

Definition sample_text (field value : string) : string :=
  ("{" ++ quoted "apiKey" ++ ":" ++ quoted "key" ++ ","
       ++ quoted "tinyCode" ++ ":" ++ quoted "tc" ++ ","
       ++ quoted "fingerprint" ++ ":42,"
       ++ quoted field ++ ":" ++ quoted value ++ ","
       ++ quoted "websiteName" ++ ":" ++ quoted "site" ++ "}")%string.

Definition sample_parsed (field value : string) : JsVal :=
  JObj [("apiKey", JStr "key"); ("tinyCode", JStr "tc"); ("fingerprint", JNum 42);
        (field, JStr value); ("websiteName", JStr "site")].

Definition parse_samples (s : string) : option JsVal :=
  if String.eqb s (sample_text "data" "click") then Some (sample_parsed "data" "click")
  else if String.eqb s (sample_text "action" "end") then Some (sample_parsed "action" "end")
  else None.

Definition sample_event (field value : string) : Event :=
  mkEvent "POST" None (Some (sample_text field value)).

(** ** The initialisation of the Firebase Admin SDK, lines 5-15 *)

Definition backslash : ascii := ascii_of_nat 92.
Definition line_feed : ascii := ascii_of_nat 10.

(** [key.replace(/\\n/g, '\n')], line 12: every backslash followed by [n]
    is replaced by a line feed, from left to right. *)
Fixpoint replaceEscapedNewlines (key : string) : string :=
  match key with
  | EmptyString => EmptyString
  | String c tl =>
      match tl with
      | EmptyString => key
      | String d rest =>
          if Ascii.eqb c backslash && Ascii.eqb d "n"
          then String line_feed (replaceEscapedNewlines rest)
          else String c (replaceEscapedNewlines tl)
      end
  end.

(** Some backslash of the string is followed by [n]. *)
Fixpoint has_escaped_newline (s : string) : bool :=
  match s with
  | EmptyString => false
  | String c tl =>
      match tl with
      | EmptyString => false
      | String d _ => (Ascii.eqb c backslash && Ascii.eqb d "n") || has_escaped_newline tl
      end
  end.

(** The argument of [admin.credential.cert]; an environment variable that is
    not set reads as [undefined] ([None]). *)
Record ServiceAccount := mkServiceAccount {
  projectId : option string;
  clientEmail : option string;
  privateKey : string
}.

Record Environment := mkEnvironment {
  FIREBASE_PROJECT_ID : option string;
  FIREBASE_CLIENT_EMAIL : option string;
  FIREBASE_PRIVATE_KEY : option string
}.

Definition isNonEmptyString (v : option string) : bool :=
  match v with
  | Some s => negb (String.eqb s "")
  | None => false
  end.

(** [admin.credential.cert(account)]: the SDK throws unless the project
    identifier, the private key and the client e-mail are non-empty strings
    and the private key is read as a PEM key; [privateKeyFromPem key] tells
    whether the PEM reader of the SDK accepts [key]. *)
Definition cert (privateKeyFromPem : string -> bool) (account : ServiceAccount)
    : option ServiceAccount :=
  if negb (isNonEmptyString (projectId account)) then None
  else if negb (isNonEmptyString (Some (privateKey account))) then None
  else if negb (isNonEmptyString (clientEmail account)) then None
  else if negb (privateKeyFromPem (privateKey account)) then None
  else Some account.

(** Lines 6-15, on [admin.apps], each app standing for the service account
    it was initialised with: the list of apps after the module is loaded, or
    [None] when loading throws ([replace] called on [undefined], or the
    credential refused). *)
Definition initializeAdmin (privateKeyFromPem : string -> bool) (env : Environment)
    (apps : list ServiceAccount) : option (list ServiceAccount) :=
  if negb (Nat.eqb (length apps) 0) then Some apps
  else
    match FIREBASE_PRIVATE_KEY env with
    | None => None
    | Some key =>
        match cert privateKeyFromPem
                (mkServiceAccount (FIREBASE_PROJECT_ID env) (FIREBASE_CLIENT_EMAIL env)
                   (replaceEscapedNewlines key)) with
        | None => None
        | Some credential => Some (apps ++ [credential])
        end
    end.

(** * Properties *)

(** Unfolds the calls on the store. *)
Ltac run_store :=
  unfold catchAll, try_bind, lift, ok, throw, bind, query_latest, doc_set, doc_update,
    doc_get, ret.

(** ** Strings *)

Lemma trimStart_head (s : string) :
  trimStart s = "" \/
  exists c t, trimStart s = String c t /\ is_whitespace c = false.
Proof.
  induction s as [|c s IH]; simpl; [now left|].
  destruct (is_whitespace c) eqn:E; [exact IH|].
  right. now exists c, s.
Qed.

Lemma trimEnd_cons_keep (c : ascii) (s : string) :
  is_whitespace c = false -> trimEnd (String c s) = String c (trimEnd s).
Proof. intros E. simpl. now rewrite E. Qed.

Lemma trimEnd_idem (s : string) : trimEnd (trimEnd s) = trimEnd s.
Proof.
  induction s as [|c s IH]; simpl; [reflexivity|].
  destruct (is_whitespace c && String.eqb (trimEnd s) "") eqn:E; [reflexivity|].
  simpl. now rewrite IH, E.
Qed.

Lemma trimStart_keep (c : ascii) (s : string) :
  is_whitespace c = false -> trimStart (String c s) = String c s.
Proof. intros E. simpl. now rewrite E. Qed.

Lemma trim_idem (s : string) : trim (trim s) = trim s.
Proof.
  unfold trim.
  destruct (trimStart_head s) as [E | (c & t & E & Hc)]; rewrite E.
  - reflexivity.
  - rewrite (trimEnd_cons_keep c t Hc), (trimStart_keep c _ Hc).
    rewrite <- (trimEnd_cons_keep c t Hc). apply trimEnd_idem.
Qed.

Lemma trimEnd_no_whitespace (s : string) : no_whitespace s = true -> trimEnd s = s.
Proof.
  induction s as [|c s IH]; simpl; [reflexivity|].
  intros [Hc Hs]%andb_true_iff. apply negb_true_iff in Hc.
  now rewrite Hc, (IH Hs).
Qed.

Lemma trim_no_whitespace (s : string) : no_whitespace s = true -> trim s = s.
Proof.
  intros H. unfold trim. destruct s as [|c s]; [reflexivity|].
  pose proof H as H'. simpl in H'. apply andb_true_iff in H' as [Hc _].
  apply negb_true_iff in Hc. rewrite (trimStart_keep c s Hc).
  now apply trimEnd_no_whitespace.
Qed.

Lemma trimStart_all_whitespace (p s : string) :
  all_whitespace p = true -> trimStart (p ++ s) = trimStart s.
Proof.
  induction p as [|c p IH]; simpl; [reflexivity|].
  intros [Hc Hp]%andb_true_iff. rewrite Hc. now apply IH.
Qed.

Lemma trimEnd_all_whitespace (q : string) : all_whitespace q = true -> trimEnd q = "".
Proof.
  induction q as [|c q IH]; simpl; [reflexivity|].
  intros [Hc Hq]%andb_true_iff. now rewrite Hc, (IH Hq).
Qed.

Lemma trimEnd_app_whitespace (s q : string) :
  no_whitespace s = true -> all_whitespace q = true -> trimEnd (s ++ q) = s.
Proof.
  intros Hs Hq. induction s as [|c s IH]; simpl.
  - now apply trimEnd_all_whitespace.
  - simpl in Hs. apply andb_true_iff in Hs as [Hc Hs]. apply negb_true_iff in Hc.
    now rewrite Hc, (IH Hs).
Qed.

Lemma trimStart_only_whitespace (q : string) :
  all_whitespace q = true -> trimStart q = "".
Proof.
  induction q as [|c q IH]; simpl; [reflexivity|].
  intros [Hc Hq]%andb_true_iff. rewrite Hc. now apply IH.
Qed.

Lemma trim_only_whitespace (q : string) : all_whitespace q = true -> trim q = "".
Proof. intros H. unfold trim. now rewrite (trimStart_only_whitespace q H). Qed.

Lemma trim_padded (p s q : string) :
  all_whitespace p = true -> no_whitespace s = true -> all_whitespace q = true ->
  trim (p ++ s ++ q) = s.
Proof.
  intros Hp Hs Hq. unfold trim. rewrite (trimStart_all_whitespace p _ Hp).
  destruct s as [|c s].
  - simpl. now rewrite (trimStart_only_whitespace q Hq).
  - pose proof Hs as H'. simpl in H'. apply andb_true_iff in H' as [Hc _].
    apply negb_true_iff in Hc.
    change (String c s ++ q)%string with (String c (s ++ q)).
    rewrite (trimStart_keep c _ Hc).
    change (String c (s ++ q)) with (String c s ++ q)%string.
    now apply trimEnd_app_whitespace.
Qed.

(** The decimal form of an integer is not empty and has no white space. *)
Lemma digits_no_whitespace (d : Decimal.uint) :
  no_whitespace (NilEmpty.string_of_uint d) = true.
Proof. induction d; simpl; auto. Qed.

Lemma Number_toString_no_whitespace (n : Z) : no_whitespace (Number_toString n) = true.
Proof.
  unfold Number_toString. destruct (Z.to_int n) as [d|d]; simpl.
  - destruct d; try reflexivity; apply (digits_no_whitespace (_ d)).
  - destruct d; try reflexivity; apply (digits_no_whitespace (_ d)).
Qed.

Lemma Number_toString_nonempty (n : Z) : Number_toString n <> "".
Proof.
  unfold Number_toString. destruct (Z.to_int n) as [d|d]; simpl.
  - destruct d; discriminate.
  - discriminate.
Qed.

Lemma trim_Number_toString (n : Z) : trim (Number_toString n) = Number_toString n.
Proof. apply trim_no_whitespace, Number_toString_no_whitespace. Qed.

(** The decimal string form of an integer, as the Standard Library reads
    decimal numerals: [s] is the numeral of [n], digits without leading
    zero, after a minus sign when [n] is negative. *)
Lemma Number_toString_decimal (n : Z) (s : string) :
  NilZero.int_of_string s = Some (Z.to_int n) <-> s = Number_toString n.
Proof.
  unfold Number_toString. split.
  - intros H. symmetry. now apply NilZero.sis.
  - intros ->. apply NilZero.isi; destruct n; simpl; try discriminate;
      intros [= H]; now apply (DecimalPos.Unsigned.to_uint_nonnil p).
Qed.

Lemma Number_toString_inj (n m : Z) : Number_toString n = Number_toString m -> n = m.
Proof.
  intros H. apply DecimalZ.to_int_inj.
  pose proof (proj2 (Number_toString_decimal n (Number_toString n)) eq_refl) as Hn.
  rewrite H in Hn.
  pose proof (proj2 (Number_toString_decimal m (Number_toString m)) eq_refl) as Hm.
  congruence.
Qed.

(** ** Values *)

(** Induction on values that reaches the items of arrays and the fields of
    objects. *)
Lemma JsVal_rect_nested (P : JsVal -> Prop) :
  P JUndefined -> P JNull -> (forall b, P (JBool b)) -> (forall n, P (JNum n)) ->
  (forall text, P (JFloat text)) -> (forall s, P (JStr s)) ->
  (forall items, Forall P items -> P (JArr items)) ->
  (forall fields, Forall (fun kv => P (snd kv)) fields -> P (JObj fields)) ->
  forall v, P v.
Proof.
  intros Hu Hn Hb Hz Hf Hs Ha Ho.
  fix IH 1. intros [ | | b | n | text | s | items | fields].
  - exact Hu.
  - exact Hn.
  - apply Hb.
  - apply Hz.
  - apply Hf.
  - apply Hs.
  - apply Ha. induction items as [|x xs IHxs]; constructor; [apply IH | exact IHxs].
  - apply Ho. induction fields as [|[k x] xs IHxs]; constructor; [apply IH | exact IHxs].
Qed.

Lemma jsval_eqb_eq (a b : JsVal) : jsval_eqb a b = true <-> a = b.
Proof.
  revert b. induction a as [ | | x | x | x | x | xs IH | xs IH] using JsVal_rect_nested;
    intros [ | | y | y | y | y | ys | ys]; simpl; try (split; [discriminate | congruence]);
    try tauto.
  - rewrite Bool.eqb_true_iff. split; congruence.
  - rewrite Z.eqb_eq. split; congruence.
  - rewrite String.eqb_eq. split; congruence.
  - rewrite String.eqb_eq. split; congruence.
  - revert ys. induction IH as [|x xs Hx _ IHxs]; intros [|y ys];
      try (split; [discriminate | congruence]); try tauto.
    rewrite andb_true_iff, Hx. specialize (IHxs ys). split.
    + intros [-> H]. apply IHxs in H. congruence.
    + intros [= -> ->]. split; [reflexivity | now apply IHxs].
  - revert ys. induction IH as [|[k x] xs Hx _ IHxs]; intros [|[l y] ys];
      try (split; [discriminate | congruence]); try tauto.
    simpl in Hx. rewrite !andb_true_iff, String.eqb_eq, Hx. specialize (IHxs ys). split.
    + intros [[-> ->] H]. apply IHxs in H. congruence.
    + intros [= -> -> ->]. repeat split. now apply IHxs.
Qed.

Lemma jsval_eqb_refl (a : JsVal) : jsval_eqb a a = true.
Proof. now apply jsval_eqb_eq. Qed.

(** Equality in the store is an equivalence, coarser than equality. *)
Lemma store_eqb_iff (a b : JsVal) : store_eqb a b = true <-> canonical a = canonical b.
Proof. apply jsval_eqb_eq. Qed.

Lemma store_eqb_refl (a : JsVal) : store_eqb a a = true.
Proof. now apply store_eqb_iff. Qed.

Lemma store_eqb_sym (a b : JsVal) : store_eqb a b = store_eqb b a.
Proof.
  destruct (store_eqb a b) eqn:E, (store_eqb b a) eqn:E'; try reflexivity.
  - apply store_eqb_iff in E. symmetry in E. apply store_eqb_iff in E. congruence.
  - apply store_eqb_iff in E'. symmetry in E'. apply store_eqb_iff in E'. congruence.
Qed.

Lemma store_eqb_trans (a b c : JsVal) :
  store_eqb a b = true -> store_eqb b c = true -> store_eqb a c = true.
Proof. rewrite !store_eqb_iff. congruence. Qed.



(** The values that count as false in a condition. *)
Lemma truthy_false_iff (v : JsVal) :
  truthy v = false <->
  v = JUndefined \/ v = JNull \/ v = JBool false \/ v = JNum 0 \/
  v = JFloat "NaN" \/ v = JFloat "0" \/ v = JStr "".
Proof.
  destruct v as [ | | b | n | text | s | items | fields]; simpl.
  - tauto.
  - tauto.
  - split; [intros -> | intros [H|[H|[H|[H|[H|[H|H]]]]]]; try discriminate; congruence].
    tauto.
  - rewrite negb_false_iff, Z.eqb_eq.
    split; [intros -> | intros [H|[H|[H|[H|[H|[H|H]]]]]]; try discriminate; congruence].
    tauto.
  - rewrite andb_false_iff, !negb_false_iff, !String.eqb_eq.
    split; [intros [-> | ->] | intros [H|[H|[H|[H|[H|[H|H]]]]]]; try discriminate];
      try tauto.
    + injection H as ->. now left.
    + injection H as ->. now right.
  - rewrite negb_false_iff, String.eqb_eq.
    split; [intros -> | intros [H|[H|[H|[H|[H|[H|H]]]]]]; try discriminate; congruence].
    tauto.
  - split; [discriminate | intros [H|[H|[H|[H|[H|[H|H]]]]]]; discriminate].
  - split; [discriminate | intros [H|[H|[H|[H|[H|[H|H]]]]]]; discriminate].
Qed.

Lemma strict_eq_str_iff (v : JsVal) (s : string) : strict_eq_str v s = true <-> v = JStr s.
Proof.
  destruct v; simpl; try (split; [discriminate | congruence]).
  rewrite String.eqb_eq. split; congruence.
Qed.

Lemma items_of_array (items : list JsVal) : items_of (JArr items) = items.
Proof. reflexivity. Qed.

Lemma items_of_single (data : JsVal) : isArray data = false -> items_of data = [data].
Proof. unfold items_of. now intros ->. Qed.

(** The items of a value that holds no [undefined] hold none. *)
Lemma items_of_defined (data : JsVal) :
  has_undefined data = false -> existsb has_undefined (items_of data) = false.
Proof.
  destruct data; simpl; try discriminate; try reflexivity; intros H; try exact H.
  unfold items_of. simpl. now rewrite H.
Qed.

(** The union keeps the array and adds at its end, once and in their order,
    the elements that are equal to no value before them. *)
Lemma union_into_spec (elements arr : list JsVal) :
  exists added,
    union_into arr elements = arr ++ added /\
    sublist added elements /\
    (forall x, In x elements -> existsb (store_eqb x) (arr ++ added) = true) /\
    (forall x, In x added -> existsb (store_eqb x) arr = false) /\
    (forall i j x y, added !! i = Some x -> added !! j = Some y ->
       store_eqb x y = true -> i = j).
Proof.
  revert arr. induction elements as [|e rest IH]; intros arr; simpl.
  - exists []. rewrite app_nil_r. repeat split; try constructor; try tauto.
    + intros x [].
    + intros i j x y H. now rewrite lookup_nil in H.
  - destruct (existsb (store_eqb e) arr) eqn:E.
    + destruct (IH arr) as (added & Heq & Hsub & Hcov & Hnew & Hdis).
      exists added. repeat split; try assumption.
      * now apply sublist_cons.
      * intros x [<- | Hx]; [|now apply Hcov].
        rewrite existsb_app, E. reflexivity.
    + destruct (IH (arr ++ [e])) as (added & Heq & Hsub & Hcov & Hnew & Hdis).
      exists (e :: added). repeat split.
      * rewrite Heq, <- app_assoc. reflexivity.
      * now apply sublist_skip.
      * intros x Hx. replace (arr ++ e :: added) with ((arr ++ [e]) ++ added)
          by now rewrite <- app_assoc.
        destruct Hx as [<- | Hx]; [|now apply Hcov].
        rewrite !existsb_app. simpl. rewrite store_eqb_refl.
        now rewrite orb_true_r.
      * intros x [<- | Hx]; [exact E|].
        specialize (Hnew x Hx). rewrite existsb_app in Hnew.
        now apply orb_false_iff in Hnew as [Hnew _].
      * assert (Hfresh : forall x, In x added -> store_eqb x e = false).
        { intros x Hx. specialize (Hnew x Hx). rewrite existsb_app in Hnew.
          apply orb_false_iff in Hnew as [_ Hnew]. simpl in Hnew.
          now rewrite orb_false_r in Hnew. }
        intros [|i] [|j] x y Hi Hj Exy; simpl in Hi, Hj.
        -- reflexivity.
        -- injection Hi as <-. rewrite store_eqb_sym in Exy.
           rewrite (Hfresh y) in Exy; [discriminate|].
           apply list_elem_of_In, list_elem_of_lookup. now exists j.
        -- injection Hj as <-.
           rewrite (Hfresh x) in Exy; [discriminate|].
           apply list_elem_of_In, list_elem_of_lookup. now exists i.
        -- f_equal. now apply (Hdis i j x y).
Qed.

Lemma union_into_prefix (elements arr : list JsVal) : arr `prefix_of` union_into arr elements.
Proof. destruct (union_into_spec elements arr) as (added & -> & _). now exists added. Qed.

(** What an array union accepts. *)
Lemma arrayUnion_refusal_None (st : Firestore) (elements : list JsVal) :
  arrayUnion_refusal st elements = None <->
  elements <> [] /\ existsb has_undefined elements = false /\
  valid_elements (rules st) elements = true.
Proof.
  unfold arrayUnion_refusal. destruct elements as [|e rest].
  - split; [discriminate | intros (H & _); contradiction].
  - destruct (existsb has_undefined (e :: rest));
      [split; [discriminate | intros (_ & H & _); discriminate]|].
    destruct (valid_elements (rules st) (e :: rest)); simpl.
    + repeat split. discriminate.
    + split; [discriminate | intros (_ & _ & H); discriminate].
Qed.

Lemma arrayUnion_accepts (elements : list JsVal) (st : Firestore) :
  elements <> [] -> existsb has_undefined elements = false ->
  valid_elements (rules st) elements = true ->
  arrayUnion elements st = (inr (fun arr => union_into arr elements), st, []).
Proof.
  intros Hne Hdef Hvalid. unfold arrayUnion.
  now rewrite (proj2 (arrayUnion_refusal_None st elements)).
Qed.

Lemma arrayUnion_cases (elements : list JsVal) (st : Firestore) :
  arrayUnion elements st = (inr (fun arr => union_into arr elements), st, []) \/
  exists err, arrayUnion elements st = (inl err, st, []).
Proof.
  unfold arrayUnion. destruct (arrayUnion_refusal st elements) as [err|].
  - right. now exists err.
  - now left.
Qed.

(** What [set] accepts. *)
Lemma set_refuses_false (st : Firestore) (fields : SessionData) :
  set_refuses st fields = false <->
  has_undefined (apiKey fields) = false /\ has_undefined (tinyCode fields) = false /\
  existsb has_undefined (dataBatches fields) = false /\
  valid_document (rules st) fields = true.
Proof.
  unfold set_refuses. rewrite !orb_false_iff, negb_false_iff. tauto.
Qed.

(** ** The normalisation of the fingerprint *)

Lemma normalizeFingerprint_string (s : string) :
  normalizeFingerprint (JStr s) =
    if String.eqb (trim s) "" then inl MissingFingerprint else inr (trim s).
Proof. reflexivity. Qed.

Lemma normalizeFingerprint_float (text : string) :
  normalizeFingerprint (JFloat text) = normalizeFingerprint (JStr text).
Proof. reflexivity. Qed.

Lemma normalizeFingerprint_number (n : Z) :
  normalizeFingerprint (JNum n) = inr (Number_toString n).
Proof.
  unfold normalizeFingerprint. simpl. rewrite trim_Number_toString.
  destruct (String.eqb_spec (Number_toString n) "") as [E|_]; [|reflexivity].
  now destruct (Number_toString_nonempty n).
Qed.

(** A normalised fingerprint is trimmed and not empty. *)
Lemma normalizeFingerprint_inr (v : JsVal) (s : string) :
  normalizeFingerprint v = inr s -> trim s = s /\ s <> "".
Proof.
  assert (H : forall x, (if String.eqb (trim x) "" then inl MissingFingerprint
                         else inr (trim x)) = inr s -> trim s = s /\ s <> "").
  { intros x. destruct (String.eqb_spec (trim x) "") as [E|E]; [discriminate|].
    intros [= <-]. split; [apply trim_idem | exact E]. }
  destruct v; try discriminate.
  - rewrite normalizeFingerprint_number. intros [= <-].
    split; [apply trim_Number_toString | apply Number_toString_nonempty].
  - rewrite normalizeFingerprint_float, normalizeFingerprint_string. apply H.
  - rewrite normalizeFingerprint_string. apply H.
Qed.

(** C6, as amended. A fingerprint given as a safe integer is normalised to
    its decimal string form, and a number that is not a safe integer to the
    string [toString] prints for it, trimmed; the same string results from a
    safe integer and from its decimal string form, with or without white
    space around it; and normalising a normalised fingerprint returns it
    unchanged. *)
Theorem C6_normalization_idempotent :
  (forall n : Z, is_safe_integer n = true ->
     exists s, normalizeFingerprint (JNum n) = inr s /\ decimal_string_form n s)
  /\ (forall text : string,
        normalizeFingerprint (JFloat text) = normalizeFingerprint (JStr text))
  /\ (forall (n : Z) (s p q : string),
        is_safe_integer n = true -> decimal_string_form n s ->
        all_whitespace p = true -> all_whitespace q = true ->
        normalizeFingerprint (JStr (p ++ s ++ q)) = normalizeFingerprint (JNum n))
  /\ (forall (v : JsVal) (s : string),
        normalizeFingerprint v = inr s -> normalizeFingerprint (JStr s) = inr s).
Proof.
  split; [|split; [|split]].
  - intros n _. exists (Number_toString n).
    split; [apply normalizeFingerprint_number | now apply Number_toString_decimal].
  - exact normalizeFingerprint_float.
  - intros n s p q _ Hs%Number_toString_decimal Hp Hq. subst s.
    rewrite normalizeFingerprint_number, normalizeFingerprint_string.
    rewrite (trim_padded p _ q Hp (Number_toString_no_whitespace n) Hq).
    destruct (String.eqb_spec (Number_toString n) "") as [E|_]; [|reflexivity].
    now destruct (Number_toString_nonempty n).
  - intros v s [Ht Hne]%normalizeFingerprint_inr.
    rewrite normalizeFingerprint_string, Ht.
    now destruct (String.eqb_spec s "").
Qed.

Lemma C6_normalization_idempotent_witness :
  (exists s, normalizeFingerprint (JNum 42) = inr s /\ decimal_string_form 42 s)
  /\ normalizeFingerprint (JStr " 42 ") = normalizeFingerprint (JNum 42)
  /\ normalizeFingerprint (JStr "42") = inr "42".
Proof.
  split; [|split].
  - exact (proj1 C6_normalization_idempotent 42%Z eq_refl).
  - exact (proj1 (proj2 (proj2 C6_normalization_idempotent)) 42%Z "42" " " " "
             eq_refl eq_refl eq_refl eq_refl).
  - exact (proj2 (proj2 (proj2 C6_normalization_idempotent)) (JNum 42) "42" eq_refl).
Defined.

(** C6, as stated, fails: the integer 10^21 is a number that [toString]
    prints as [1e+21]; its normalisation is that string, which is not its
    decimal string form and is not the normalisation of the numeric string
    of the same integer. *)
Lemma C6_counterexample :
  normalizeFingerprint (JFloat "1e+21") = inr "1e+21"
  /\ ~ decimal_string_form (10 ^ 21) "1e+21"
  /\ decimal_string_form (10 ^ 21) "1000000000000000000000"
  /\ normalizeFingerprint (JStr "1000000000000000000000") <>
     normalizeFingerprint (JFloat "1e+21").
Proof.
  split; [reflexivity | split; [|split]].
  - unfold decimal_string_form. vm_compute. discriminate.
  - reflexivity.
  - vm_compute. discriminate.
Qed.

(** What [toString] gives at the ends of the safe integers and at zero. *)
Example Number_toString_examples :
  Number_toString 0 = "0" /\ Number_toString 42 = "42" /\ Number_toString (-7) = "-7"
  /\ Number_toString (2 ^ 53 - 1) = "9007199254740991"
  /\ Number_toString (- (2 ^ 53 - 1)) = "-9007199254740991".
Proof. repeat split. Qed.

(** C7. A request whose fingerprint is neither a string nor a number, or is
    a string that trims to the empty string, is rejected with a 400
    ([InvalidFingerprintType], respectively [MissingFingerprint]); no call is
    made on the store, which stays as it is. *)
Theorem C7_fingerprint_rejected (hdrs : Headers) (req : Request) (st : Firestore) :
  (typeof_string (req_fingerprint req) = false ->
   typeof_number (req_fingerprint req) = false ->
   handleRequest hdrs req st =
     (mkResponse 400 hdrs (error_body InvalidFingerprintType), st, []))
  /\ (forall s, req_fingerprint req = JStr s -> trim s = "" ->
      handleRequest hdrs req st =
        (mkResponse 400 hdrs (error_body MissingFingerprint), st, [])).
Proof.
  split.
  - intros Hs Hn. unfold handleRequest, tryRequest, normalizeFingerprint.
    rewrite Hn, Hs. reflexivity.
  - intros s Hf Ht. unfold handleRequest, tryRequest.
    rewrite Hf, normalizeFingerprint_string, Ht. reflexivity.
Qed.

Lemma C7_fingerprint_rejected_witness :
  handleRequest [] (sample_request (JArr [JNum 42]) (JStr "click") JUndefined) empty_store =
    (mkResponse 400 [] (error_body InvalidFingerprintType), empty_store, [])
  /\ handleRequest [] (sample_request (JStr "   ") (JStr "click") JUndefined) empty_store =
    (mkResponse 400 [] (error_body MissingFingerprint), empty_store, []).
Proof.
  split.
  - exact (proj1 (C7_fingerprint_rejected []
                    (sample_request (JArr [JNum 42]) (JStr "click") JUndefined)
                    empty_store) eq_refl eq_refl).
  - exact (proj2 (C7_fingerprint_rejected []
                    (sample_request (JStr "   ") (JStr "click") JUndefined)
                    empty_store) "   " eq_refl eq_refl).
Defined.

(** ** The query for the most recent session *)

Lemma path_eqb_eq (p q : list string) : path_eqb p q = true <-> p = q.
Proof.
  revert q. induction p as [|x p IH]; intros [|y q]; simpl;
    try (split; [discriminate | congruence]); try tauto.
  rewrite andb_true_iff, String.eqb_eq, IH. split; [intros [-> ->] | intros [= -> ->]]; auto.
Qed.

(** A document is at a path when the path and the document name the same
    sub-collection. *)
Lemma at_path_iff (w : JsVal) (fp : string) (d : SessionDoc) :
  at_path w fp d = true <->
  exists p, sessionsCollRef w fp = Some p /\ doc_path d = Some p.
Proof.
  unfold at_path.
  destruct (sessionsCollRef w fp) as [p|], (doc_path d) as [q|];
    try (split; [discriminate | intros (r & H1 & H2); congruence]).
  rewrite path_eqb_eq. split.
  - intros ->. now exists p.
  - intros (r & H1 & H2). congruence.
Qed.

Lemma at_path_valid (w : JsVal) (fp : string) (d : SessionDoc) :
  at_path w fp d = true -> sessionsCollRef w fp <> None.
Proof. intros (p & H & _)%at_path_iff. congruence. Qed.

Lemma at_path_self (d : SessionDoc) :
  doc_path d <> None -> at_path (doc_website d) (doc_fingerprint d) d = true.
Proof.
  intros H. apply at_path_iff. unfold doc_path in *.
  destruct (sessionsCollRef (doc_website d) (doc_fingerprint d)) as [p|]; [|contradiction].
  now exists p.
Qed.

(** Two documents at one path are in the same sub-collection. *)
Lemma at_path_same (w : JsVal) (fp : string) (d e : SessionDoc) :
  at_path w fp d = true -> at_path w fp e = true -> doc_path d = doc_path e.
Proof. intros (p & H1 & H2)%at_path_iff (q & H3 & H4)%at_path_iff. congruence. Qed.


(** Two documents filed under the same website name and fingerprint are in
    the same sub-collection. *)
Lemma same_entry_path (d e : SessionDoc) : same_entry d e -> doc_path d = doc_path e.
Proof. intros [Hw Hf]. unfold doc_path. now rewrite Hw, Hf. Qed.

Lemma latest_from_None (i : nat) (l : list SessionDoc) (w : JsVal) (fp : string) :
  latest_from i l w fp = None <-> forall d, In d l -> at_path w fp d = false.
Proof.
  revert i. induction l as [|d l IH]; intros i; simpl.
  - split; [intros _ d [] | reflexivity].
  - destruct (at_path w fp d) eqn:E.
    + split.
      * destruct (latest_from (S i) l w fp) as [[j e]|]; [|discriminate].
        destruct (startedAt (doc_data d) <=? startedAt e)%nat; discriminate.
      * intros H. specialize (H d (or_introl eq_refl)). congruence.
    + rewrite IH. split.
      * intros H d' [<- | Hin]; [exact E | now apply H].
      * intros H d' Hin. apply H. now right.
Qed.

Lemma latest_from_Some (i : nat) (l : list SessionDoc) (w : JsVal) (fp : string)
    (k : nat) (e : SessionData) :
  latest_from i l w fp = Some (k, e) ->
  exists d, i <= k /\ l !! (k - i) = Some d /\ doc_data d = e /\
    at_path w fp d = true /\
    forall j d', l !! j = Some d' -> at_path w fp d' = true ->
      startedAt (doc_data d') <= startedAt e.
Proof.
  revert i k e. induction l as [|d l IH]; intros i k e; simpl; [discriminate|].
  assert (Hrest : forall k e, latest_from (S i) l w fp = Some (k, e) ->
            exists d0, i <= k /\ (d :: l) !! (k - i) = Some d0 /\ doc_data d0 = e /\
              at_path w fp d0 = true /\
              forall j d', l !! j = Some d' -> at_path w fp d' = true ->
                startedAt (doc_data d') <= startedAt e).
  { intros k0 e0 H. destruct (IH _ _ _ H) as (d0 & Hle & Hl & He & Hp & Hmax).
    exists d0. repeat split; try assumption; [lia|].
    replace (k0 - i) with (S (k0 - S i)) by lia. exact Hl. }
  destruct (at_path w fp d) eqn:E.
  - destruct (latest_from (S i) l w fp) as [[j e']|] eqn:R.
    + destruct (startedAt (doc_data d) <=? startedAt e')%nat eqn:C.
      * intros [= -> ->]. destruct (Hrest _ _ eq_refl) as (d0 & ? & ? & ? & ? & Hmax).
        exists d0. repeat split; try assumption.
        intros [|n] d' Hd' Hp'; simpl in Hd'.
        -- injection Hd' as <-. now apply Nat.leb_le.
        -- now apply (Hmax n).
      * intros [= <- <-]. exists d. rewrite Nat.sub_diag. repeat split; try assumption; [lia|].
        apply Nat.leb_gt in C.
        destruct (Hrest _ _ eq_refl) as (_ & _ & _ & _ & _ & Hmax).
        intros [|n] d' Hd' Hp'; simpl in Hd'.
        -- injection Hd' as <-. lia.
        -- specialize (Hmax n d' Hd' Hp'). lia.
    + intros [= <- <-]. exists d. rewrite Nat.sub_diag. repeat split; try assumption; [lia|].
      intros [|n] d' Hd' Hp'; simpl in Hd'.
      * injection Hd' as <-. lia.
      * apply (proj1 (latest_from_None _ _ _ _)) with (d := d') in R; [congruence|].
        apply list_elem_of_In, list_elem_of_lookup. now exists n.
  - intros H. destruct (Hrest _ _ H) as (d0 & ? & ? & ? & ? & Hmax).
    exists d0. repeat split; try assumption.
    intros [|n] d' Hd' Hp'; simpl in Hd'.
    + injection Hd' as <-. congruence.
    + now apply (Hmax n).
Qed.

(** The query answers nothing exactly when the sub-collection has no
    session. *)
Lemma latest_None (st : Firestore) (w : JsVal) (fp : string) :
  latest st w fp = None <->
  forall i d, docs st !! i = Some d -> at_path w fp d = false.
Proof.
  unfold latest. rewrite latest_from_None. split.
  - intros H i d Hd. apply H, list_elem_of_In, list_elem_of_lookup. now exists i.
  - intros H d Hin. apply list_elem_of_In, list_elem_of_lookup in Hin as [i Hi].
    now apply (H i).
Qed.

(** The session it answers is a session of the sub-collection, with the
    greatest [startedAt] of the sub-collection. *)
Lemma latest_Some (st : Firestore) (w : JsVal) (fp : string) (k : nat) (e : SessionData) :
  latest st w fp = Some (k, e) ->
  exists d, docs st !! k = Some d /\ doc_data d = e /\
    at_path w fp d = true /\
    forall j d', docs st !! j = Some d' -> at_path w fp d' = true ->
      startedAt (doc_data d') <= startedAt e.
Proof.
  unfold latest. intros H.
  destruct (latest_from_Some _ _ _ _ _ _ H) as (d & _ & Hd & He & Hp & Hmax).
  rewrite Nat.sub_0_r in Hd. exists d. repeat split; assumption.
Qed.

Lemma latest_valid (st : Firestore) (w : JsVal) (fp : string) (k : nat) (e : SessionData) :
  latest st w fp = Some (k, e) -> sessionsCollRef w fp <> None.
Proof.
  intros (d & _ & _ & Hp & _)%latest_Some. now apply (at_path_valid w fp d).
Qed.

Lemma alter_known {A : Type} (f : A -> A) (l : list A) (i : nat) (x : A) :
  l !! i = Some x -> alter f i l = <[i := f x]> l.
Proof.
  revert i. induction l as [|y l IH]; intros [|i]; simpl; try discriminate.
  - now intros [= ->].
  - intros H. f_equal. now apply IH.
Qed.

Lemma is_end_not_append (req : Request) : is_end req = true -> is_append req = false.
Proof.
  unfold is_end, is_append, strict_eq_str.
  destruct (req_action req) as [ | | | | | s | | ]; try discriminate.
  intros ->%String.eqb_eq. simpl. apply andb_false_r.
Qed.

(** ** Code that may throw *)

Lemma try_bind_ok {A B : Type} (a : A) (k : A -> Try B) (st : Firestore) :
  try_bind (ok a) k st = k a st.
Proof. run_store. now destruct (k a st) as [[b st2] ops]. Qed.

Lemma catchAll_ext (hdrs : Headers) (block block' : Try Response) (st : Firestore) :
  block st = block' st -> catchAll hdrs block st = catchAll hdrs block' st.
Proof. intros H. unfold catchAll, bind. now rewrite H. Qed.

(** ** Requests with a normalised fingerprint

    The claims on the three branches are about a request whose fingerprint
    passed lines 71-92; [fp] is the normalised fingerprint and [st] the
    store when the request arrives.  Such a request reaches the query of
    line 99 when lines 95-96 accept its website name and its fingerprint as
    the path of a sub-collection. *)

Section Normalised.

Variables (hdrs : Headers) (req : Request) (fp : string) (st : Firestore).
Hypothesis Hfp : normalizeFingerprint (req_fingerprint req) = inr fp.

(** Lines 95-96 throw: the catch-all answers and no call is made on the
    store. *)
Lemma handleRequest_invalid_path :
  sessionsCollRef (req_websiteName req) fp = None ->
  handleRequest hdrs req st = (internalError hdrs InvalidResourcePath, st, []).
Proof. intros H. unfold handleRequest, tryRequest. rewrite Hfp, H. reflexivity. Qed.

Lemma handleRequest_normalised :
  sessionsCollRef (req_websiteName req) fp <> None ->
  handleRequest hdrs req st =
    catchAll hdrs
      (latestSessionSnap <-? lift (query_latest (req_websiteName req) fp) ;;
       if is_append req then appendOrStart hdrs req fp latestSessionSnap
       else if is_end req then endSession hdrs req fp
       else ok (notUpdated hdrs fp)) st.
Proof.
  intros H. unfold handleRequest, tryRequest. rewrite Hfp.
  destruct (sessionsCollRef (req_websiteName req) fp); [|contradiction].
  apply catchAll_ext. exact (try_bind_ok tt (fun _ => _) st).
Qed.

(** C4, as amended. Past the normalisation of the fingerprint and lines
    95-99 exactly one branch runs, the first of this list whose condition
    holds: the append/start branch if [data] is truthy (none of [undefined],
    [null], [false], [0], [NaN] and the empty string) and [action] is falsy
    or equal to "append"; the close branch if [action] equals "end"; the
    no-op branch otherwise. *)
Theorem C4_branch_selection :
  let w := req_websiteName req in
  let appending :=
    truthy (req_data req) = true /\
    (truthy (req_action req) = false \/ req_action req = JStr "append") in
  sessionsCollRef w fp <> None ->
  (appending ->
   handleRequest hdrs req st =
     catchAll hdrs
       (snap <-? lift (query_latest w fp) ;; appendOrStart hdrs req fp snap) st)
  /\ (~ appending -> req_action req = JStr "end" ->
      handleRequest hdrs req st =
        catchAll hdrs (_ <-? lift (query_latest w fp) ;; endSession hdrs req fp) st)
  /\ (~ appending -> req_action req <> JStr "end" ->
      handleRequest hdrs req st = (notUpdated hdrs fp, st, [QueryLatest w fp])).
Proof.
  intros w appending Hpath.
  assert (Happ : is_append req = true <-> appending).
  { unfold is_append, appending.
    rewrite andb_true_iff, orb_true_iff, negb_true_iff, strict_eq_str_iff. tauto. }
  rewrite (handleRequest_normalised Hpath). fold w. run_store.
  split; [|split].
  - intros H. apply Happ in H. now rewrite H.
  - intros Hn He. destruct (is_append req) eqn:E; [now destruct Hn; apply Happ|].
    apply strict_eq_str_iff in He. unfold is_end. now rewrite He.
  - intros Hn He. destruct (is_append req) eqn:E; [now destruct Hn; apply Happ|].
    destruct (is_end req) eqn:E'; [|reflexivity].
    apply strict_eq_str_iff in E'. contradiction.
Qed.

(** The [set] of line 127, for a request that enters the append/start branch
    while its sub-collection has no session or its most recent session is
    closed: the catch-all when the document is refused, and otherwise the
    creation of one document. *)
Lemma handleRequest_start :
  is_append req = true ->
  sessionsCollRef (req_websiteName req) fp <> None ->
  (latest st (req_websiteName req) fp = None \/
   exists ref d t, latest st (req_websiteName req) fp = Some (ref, d) /\ endedAt d = Some t) ->
  let now := serverTime st in
  let fields :=
    mkSessionData (req_apiKey req) (req_tinyCode req) now now None
      (items_of (req_data req)) in
  handleRequest hdrs req st =
    if set_refuses st fields then
      (internalError hdrs SetRefused, st, [QueryLatest (req_websiteName req) fp])
    else
      (recorded hdrs true,
       mkFirestore (docs st ++ [mkSessionDoc (req_websiteName req) fp fields]) (S now)
         (rules st),
       [QueryLatest (req_websiteName req) fp; DocSet (length (docs st))]).
Proof.
  intros Happ Hpath Hlatest now fields.
  rewrite (handleRequest_normalised Hpath). run_store. rewrite Happ.
  unfold appendOrStart. run_store.
  assert (E : match latest st (req_websiteName req) fp with
              | Some (ref, lastSessionData) =>
                  if has_ended lastSessionData then None else Some ref
              | None => None
              end = None).
  { destruct Hlatest as [-> | (ref & d & t & -> & Hd)]; [reflexivity|].
    unfold has_ended. now rewrite Hd. }
  rewrite E. fold now. fold fields. destruct (set_refuses st fields); reflexivity.
Qed.

(** C1. A request that enters the append/start branch while its
    sub-collection has no session, or while the most recent session of its
    sub-collection is closed, calls [set] with a document that has
    [startedAt = lastActivity = now], [endedAt = null] and the items of
    [data] as [dataBatches] ([data] itself when it is an array, [[data]]
    otherwise).  When [set] accepts the document, exactly one document is
    added to the store, no other is changed, and the response is a 200 with
    [success = true] and [newSessionStarted = true].  When [set] refuses the
    document, as it does when the request has no [apiKey] or no [tinyCode],
    no document is created and the response is the 500 of the catch-all. *)
Theorem C1_start_new :
  is_append req = true ->
  sessionsCollRef (req_websiteName req) fp <> None ->
  (latest st (req_websiteName req) fp = None \/
   exists ref d t, latest st (req_websiteName req) fp = Some (ref, d) /\ endedAt d = Some t) ->
  let now := serverTime st in
  let fields :=
    mkSessionData (req_apiKey req) (req_tinyCode req) now now None
      (items_of (req_data req)) in
  handleRequest hdrs req st =
    (if set_refuses st fields then
       (mkResponse 500 hdrs (StringifyError SetRefused), st,
        [QueryLatest (req_websiteName req) fp])
     else
       (mkResponse 200 hdrs
          (Stringify (JObj [("success", JBool true);
                            ("message", JStr "Started a new session and recorded data.");
                            ("newSessionStarted", JBool true)])),
        mkFirestore (docs st ++ [mkSessionDoc (req_websiteName req) fp fields]) (S now)
          (rules st),
        [QueryLatest (req_websiteName req) fp; DocSet (length (docs st))]))
  /\ (req_apiKey req = JUndefined \/ req_tinyCode req = JUndefined ->
      set_refuses st fields = true)
  /\ (has_undefined (req_apiKey req) = false -> has_undefined (req_tinyCode req) = false ->
      has_undefined (req_data req) = false -> valid_document (rules st) fields = true ->
      set_refuses st fields = false)
  /\ (forall items, req_data req = JArr items -> items_of (req_data req) = items)
  /\ (isArray (req_data req) = false -> items_of (req_data req) = [req_data req]).
Proof.
  intros Happ Hpath Hlatest now fields.
  split; [|split; [|split; [|split]]].
  - exact (handleRequest_start Happ Hpath Hlatest).
  - intros Hu. unfold set_refuses, fields. cbn [apiKey tinyCode dataBatches].
    destruct Hu as [-> | ->]; simpl; [reflexivity|].
    now rewrite orb_true_r.
  - intros Hk Ht Hd Hv. apply set_refuses_false. unfold fields at 1 2 3.
    cbn [apiKey tinyCode dataBatches].
    repeat split; try assumption. now apply items_of_defined.
  - intros items ->. apply items_of_array.
  - apply items_of_single.
Qed.

(** The [update] of lines 137-147, for a request that enters the
    append/start branch while the most recent session of its sub-collection
    is open: refused when [arrayUnion] throws, and otherwise the update of
    that session. *)
Lemma handleRequest_append (ref : nat) (d : SessionData) :
  is_append req = true ->
  latest st (req_websiteName req) fp = Some (ref, d) ->
  endedAt d = None ->
  let now := serverTime st in
  exists doc,
    docs st !! ref = Some doc /\ doc_data doc = d /\
    at_path (req_websiteName req) fp doc = true /\
    handleRequest hdrs req st =
      match arrayUnion (items_of (req_data req)) st with
      | (inl err, _, _) =>
          (internalError hdrs err, st, [QueryLatest (req_websiteName req) fp])
      | (inr union, _, _) =>
          (recorded hdrs false,
           mkFirestore
             (<[ref := mkSessionDoc (doc_website doc) (doc_fingerprint doc)
                         (mkSessionData (apiKey d) (tinyCode d) (startedAt d) now None
                            (union (dataBatches d)))]> (docs st))
             (S now) (rules st),
           [QueryLatest (req_websiteName req) fp; DocUpdate ref])
      end.
Proof.
  intros Happ Hlatest Hopen now.
  destruct (latest_Some _ _ _ _ _ Hlatest) as (doc & Hdoc & Hdata & Hp & _).
  exists doc. repeat split; try assumption.
  rewrite (handleRequest_normalised (latest_valid _ _ _ _ _ Hlatest)).
  run_store. rewrite Happ, Hlatest.
  unfold appendOrStart, has_ended. rewrite Hopen. run_store.
  destruct (arrayUnion_cases (items_of (req_data req)) st) as [E | (err & E)];
    rewrite E; [|reflexivity].
  cbn [docs serverTime fst snd app].
  rewrite (alter_known _ _ _ _ Hdoc), Hdata, Hopen. reflexivity.
Qed.

(** C2, as amended. A request that enters the append/start branch with at
    least one item of [data], while the most recent session of its
    sub-collection is open and when the store accepts the update, changes
    that document and no other: [apiKey], [tinyCode], [startedAt] and
    [endedAt] are kept, [lastActivity] is advanced to now, and [dataBatches]
    becomes its array union with the items of [data]: the stored items stay
    in place and each item of [data] that is equal to no item before it is
    added once, at the end and in order.  The response is a 200 with
    [newSessionStarted = false]. *)
Theorem C2_append_open (ref : nat) (d : SessionData) :
  is_append req = true ->
  latest st (req_websiteName req) fp = Some (ref, d) ->
  endedAt d = None ->
  items_of (req_data req) <> [] ->
  has_undefined (req_data req) = false ->
  valid_elements (rules st) (items_of (req_data req)) = true ->
  let now := serverTime st in
  exists doc added,
    docs st !! ref = Some doc /\ doc_data doc = d /\
    handleRequest hdrs req st =
      (mkResponse 200 hdrs
         (Stringify (JObj [("success", JBool true);
                           ("message", JStr "Added data to the existing active session.");
                           ("newSessionStarted", JBool false)])),
       mkFirestore
         (<[ref := mkSessionDoc (doc_website doc) (doc_fingerprint doc)
                     (mkSessionData (apiKey d) (tinyCode d) (startedAt d) now None
                        (dataBatches d ++ added))]> (docs st))
         (S now) (rules st),
       [QueryLatest (req_websiteName req) fp; DocUpdate ref]) /\
    (times_ok st -> lastActivity d < now) /\
    sublist added (items_of (req_data req)) /\
    (forall x, In x (items_of (req_data req)) ->
       existsb (store_eqb x) (dataBatches d ++ added) = true) /\
    (forall x, In x added -> existsb (store_eqb x) (dataBatches d) = false) /\
    (forall i j x y, added !! i = Some x -> added !! j = Some y ->
       store_eqb x y = true -> i = j).
Proof.
  intros Happ Hlatest Hopen Hne Hdef Hvalid now.
  destruct (handleRequest_append ref d Happ Hlatest Hopen) as (doc & Hdoc & Hdata & _ & H).
  destruct (union_into_spec (items_of (req_data req)) (dataBatches d))
    as (added & Heq & Hsub & Hcov & Hnew & Hdis).
  exists doc, added. repeat split; try assumption.
  - rewrite H, (arrayUnion_accepts _ st Hne (items_of_defined _ Hdef) Hvalid), Heq.
    reflexivity.
  - intros Ht. destruct (Ht ref doc Hdoc) as (_ & Hlt & _). now rewrite Hdata in Hlt.
Qed.

(** The close branch, lines 169-204. *)
Lemma handleRequest_end :
  is_end req = true ->
  sessionsCollRef (req_websiteName req) fp <> None ->
  let w := req_websiteName req in
  let now := serverTime st in
  handleRequest hdrs req st =
    match latest st w fp with
    | None =>
        (mkResponse 404 hdrs (error_body NoActiveSession), st,
         [QueryLatest w fp; QueryLatest w fp])
    | Some (ref, d) =>
        if has_ended d then
          (mkResponse 400 hdrs (error_body SessionAlreadyEnded), st,
           [QueryLatest w fp; QueryLatest w fp])
        else
          let close doc :=
            mkSessionDoc (doc_website doc) (doc_fingerprint doc)
              (mkSessionData (apiKey (doc_data doc)) (tinyCode (doc_data doc))
                 (startedAt (doc_data doc)) now (Some now) (dataBatches (doc_data doc))) in
          (mkResponse 200 hdrs
             (StringifySession "Session ended. Data stored in Firestore."
                (doc_data <$> alter close ref (docs st) !! ref)),
           mkFirestore (alter close ref (docs st)) (S now) (rules st),
           [QueryLatest w fp; QueryLatest w fp; DocUpdate ref; DocGet ref])
    end.
Proof.
  intros Hend Hpath w now. rewrite (handleRequest_normalised Hpath). fold w.
  unfold endSession. run_store. fold w.
  rewrite (is_end_not_append req Hend), Hend.
  destruct (latest st w fp) as [[ref d]|]; [|reflexivity].
  destruct (has_ended d); reflexivity.
Qed.

(** The no-op branch, lines 206-211. *)
Lemma handleRequest_noop :
  is_append req = false -> is_end req = false ->
  sessionsCollRef (req_websiteName req) fp <> None ->
  handleRequest hdrs req st =
    (notUpdated hdrs fp, st, [QueryLatest (req_websiteName req) fp]).
Proof.
  intros Happ Hend Hpath. rewrite (handleRequest_normalised Hpath). run_store.
  now rewrite Happ, Hend.
Qed.


(** C3. A request that enters the close branch: fails with
    [NoActiveSession] (404) and writes nothing when its sub-collection has
    no session; fails with [SessionAlreadyEnded] (400) and leaves the store
    as it is when the most recent session is closed; otherwise makes a
    single update, which sets [endedAt = lastActivity = now] on the most
    recent session, and answers 200 with the fields of the closed
    session. *)
Theorem C3_close :
  is_end req = true ->
  let w := req_websiteName req in
  let now := serverTime st in
  (sessionsCollRef w fp <> None -> latest st w fp = None ->
   handleRequest hdrs req st =
     (mkResponse 404 hdrs (error_body NoActiveSession), st,
      [QueryLatest w fp; QueryLatest w fp]))
  /\ (forall ref d t,
        latest st w fp = Some (ref, d) -> endedAt d = Some t ->
        handleRequest hdrs req st =
          (mkResponse 400 hdrs (error_body SessionAlreadyEnded), st,
           [QueryLatest w fp; QueryLatest w fp]))
  /\ (forall ref d,
        latest st w fp = Some (ref, d) -> endedAt d = None ->
        exists doc,
          docs st !! ref = Some doc /\ doc_data doc = d /\
          let closed :=
            mkSessionData (apiKey d) (tinyCode d) (startedAt d) now (Some now)
              (dataBatches d) in
          handleRequest hdrs req st =
            (mkResponse 200 hdrs
               (StringifySession "Session ended. Data stored in Firestore." (Some closed)),
             mkFirestore
               (<[ref := mkSessionDoc (doc_website doc) (doc_fingerprint doc) closed]>
                  (docs st))
               (S now) (rules st),
             [QueryLatest w fp; QueryLatest w fp; DocUpdate ref; DocGet ref])).
Proof.
  intros Hend w now.
  pose proof (is_end_not_append req Hend) as Happ.
  assert (Hrun : sessionsCollRef w fp <> None ->
            handleRequest hdrs req st =
              catchAll hdrs
                (_ <-? lift (query_latest w fp) ;; endSession hdrs req fp) st).
  { intros Hpath. rewrite (handleRequest_normalised Hpath). fold w. run_store.
    now rewrite Happ, Hend. }
  split; [|split].
  - intros Hpath Hnone. rewrite (Hrun Hpath). unfold endSession. run_store. fold w.
    rewrite Hnone. reflexivity.
  - intros ref d t Hlatest Hd. rewrite (Hrun (latest_valid _ _ _ _ _ Hlatest)).
    unfold endSession. run_store. fold w. rewrite Hlatest.
    unfold has_ended. rewrite Hd. reflexivity.
  - intros ref d Hlatest Hopen.
    destruct (latest_Some _ _ _ _ _ Hlatest) as (doc & Hdoc & Hdata & _).
    exists doc. repeat split; try assumption.
    rewrite (Hrun (latest_valid _ _ _ _ _ Hlatest)).
    unfold endSession. run_store. fold w. rewrite Hlatest.
    unfold has_ended. rewrite Hopen.
    cbn [docs serverTime fst snd app].
    rewrite list_lookup_alter_eq, (alter_known _ _ _ _ Hdoc), Hdoc, Hdata.
    cbn [fmap option_fmap option_map doc_data]. rewrite Hdata. reflexivity.
Qed.

(** C8. A request that reaches the selection of the branch and selects
    neither the append/start branch nor the close branch is answered 200
    with [{message: "Session not updated.", fingerprint}]; the only call on
    the store is the query of line 99, no write is made and the store stays
    as it is. *)
Theorem C8_noop :
  sessionsCollRef (req_websiteName req) fp <> None ->
  is_append req = false ->
  is_end req = false ->
  exists ops,
    handleRequest hdrs req st =
      (mkResponse 200 hdrs
         (Stringify (JObj [("message", JStr "Session not updated.");
                           ("fingerprint", JStr fp)])),
       st, ops)
    /\ ops = [QueryLatest (req_websiteName req) fp]
    /\ filter (fun op => is_write op = true) ops = [].
Proof.
  intros Hpath Happ Hend. exists [QueryLatest (req_websiteName req) fp].
  repeat split. rewrite (handleRequest_normalised Hpath). run_store.
  now rewrite Happ, Hend.
Qed.

(** C9. Whether the most recent session is open is read from [endedAt]
    alone, in the same way by both branches.  With [endedAt = null] the
    append/start branch appends: it answers [newSessionStarted = false],
    unless the array union is refused; and the close branch closes (200).
    With any other [endedAt] the append/start branch starts a session: it
    answers [newSessionStarted = true], unless [set] refuses the document;
    and the close branch rejects (400, [SessionAlreadyEnded]).  No other
    field of the session enters the response of the append/start branch and
    the status of the close branch. *)
Theorem C9_endedAt_discriminates (ref : nat) (d : SessionData) :
  latest st (req_websiteName req) fp = Some (ref, d) ->
  let response := fst (fst (handleRequest hdrs req st)) in
  let closed := match endedAt d with Some _ => true | None => false end in
  let now := serverTime st in
  let items := items_of (req_data req) in
  (is_append req = true ->
   response =
     if closed then
       if set_refuses st
            (mkSessionData (req_apiKey req) (req_tinyCode req) now now None items)
       then internalError hdrs SetRefused
       else recorded hdrs true
     else
       match arrayUnion_refusal st items with
       | Some err => internalError hdrs err
       | None => recorded hdrs false
       end)
  /\ (is_end req = true ->
      if closed then response = mkResponse 400 hdrs (error_body SessionAlreadyEnded)
      else exists session, response =
             mkResponse 200 hdrs
               (StringifySession "Session ended. Data stored in Firestore." session)).
Proof.
  intros Hlatest response closed now items. subst response closed now items.
  pose proof (latest_valid _ _ _ _ _ Hlatest) as Hpath. split.
  - intros Happ. destruct (endedAt d) as [t|] eqn:Hd.
    + rewrite (handleRequest_start Happ Hpath); [|right; now exists ref, d, t].
      now destruct (set_refuses st _).
    + destruct (handleRequest_append ref d Happ Hlatest Hd) as (doc & _ & _ & _ & ->).
      unfold arrayUnion.
      now destruct (arrayUnion_refusal st (items_of (req_data req))).
  - intros Hend. pose proof (is_end_not_append req Hend) as Happ.
    rewrite (handleRequest_normalised Hpath). unfold endSession. run_store.
    rewrite Happ, Hend, Hlatest. unfold has_ended.
    destruct (endedAt d); [reflexivity|].
    eexists. reflexivity.
Qed.

End Normalised.

(** The claims at concrete requests. *)

Lemma C1_start_new_witness :
  handleRequest [] (untagged_request (JNum 42) (JStr "click") JUndefined) empty_store =
    (mkResponse 500 [] (StringifyError SetRefused), empty_store,
     [QueryLatest (JStr "site") "42"])
  /\ handleRequest [] (sample_request (JNum 42) (JStr "click") JUndefined) empty_store =
    (mkResponse 200 []
       (Stringify (JObj [("success", JBool true);
                         ("message", JStr "Started a new session and recorded data.");
                         ("newSessionStarted", JBool true)])),
     sample_store 0 None 1,
     [QueryLatest (JStr "site") "42"; DocSet 0]).
Proof.
  split.
  - refine (proj1 (C1_start_new []
              (untagged_request (JNum 42) (JStr "click") JUndefined) "42" empty_store
              _ _ _ _)).
    + reflexivity.
    + reflexivity.
    + discriminate.
    + left. reflexivity.
  - refine (proj1 (C1_start_new []
              (sample_request (JNum 42) (JStr "click") JUndefined) "42" empty_store
              _ _ _ _)).
    + reflexivity.
    + reflexivity.
    + discriminate.
    + left. reflexivity.
Defined.

Lemma C2_append_open_witness :
  exists doc added,
    sample_docs 0 None !! 0 = Some doc /\
    doc_data doc = sample_session 0 None /\
    handleRequest []
      (sample_request (JStr " 42") (JArr [JStr "scroll"; JStr "click"]) (JStr "append"))
      (sample_store 0 None 5) =
      (mkResponse 200 []
         (Stringify (JObj [("success", JBool true);
                           ("message", JStr "Added data to the existing active session.");
                           ("newSessionStarted", JBool false)])),
       mkFirestore
         (<[0 := mkSessionDoc (doc_website doc) (doc_fingerprint doc)
                   (mkSessionData (JStr "key") (JStr "tc") 0 5 None
                      ([JStr "click"] ++ added))]>
            (sample_docs 0 None))
         6 accept_all,
       [QueryLatest (JStr "site") "42"; DocUpdate 0]) /\
    (times_ok (sample_store 0 None 5) -> 0 < 5) /\
    sublist added [JStr "scroll"; JStr "click"] /\
    (forall x, In x [JStr "scroll"; JStr "click"] ->
       existsb (store_eqb x) ([JStr "click"] ++ added) = true) /\
    (forall x, In x added -> existsb (store_eqb x) [JStr "click"] = false) /\
    (forall i j x y, added !! i = Some x -> added !! j = Some y ->
       store_eqb x y = true -> i = j).
Proof.
  refine (C2_append_open []
            (sample_request (JStr " 42") (JArr [JStr "scroll"; JStr "click"])
               (JStr "append"))
            "42" (sample_store 0 None 5) _ 0 (sample_session 0 None) _ _ _ _ _ _);
    try reflexivity.
  discriminate.
Defined.

(** C2, as stated, fails: an item of [data] that is already in [dataBatches]
    is not added again. *)
Lemma C2_counterexample :
  ~ (forall (hdrs : Headers) (req : Request) (fp : string) (st : Firestore)
       (ref : nat) (d : SessionData),
       normalizeFingerprint (req_fingerprint req) = inr fp ->
       is_append req = true ->
       latest st (req_websiteName req) fp = Some (ref, d) ->
       endedAt d = None ->
       dataBatches <$> (doc_data <$> docs (snd (fst (handleRequest hdrs req st))) !! ref) =
         Some (dataBatches d ++ items_of (req_data req))).
Proof.
  intros H.
  specialize (H [] (sample_request (JNum 42) (JStr "click") JUndefined) "42"
                (sample_store 0 None 1) 0 (sample_session 0 None)
                eq_refl eq_refl eq_refl eq_refl).
  vm_compute in H. discriminate H.
Qed.

Lemma C3_close_witness :
  handleRequest [] (sample_request (JStr "42") JUndefined (JStr "end")) empty_store =
    (mkResponse 404 [] (error_body NoActiveSession), empty_store,
     [QueryLatest (JStr "site") "42"; QueryLatest (JStr "site") "42"])
  /\ handleRequest [] (sample_request (JStr "42") JUndefined (JStr "end"))
       (sample_store 2 (Some 2) 3) =
    (mkResponse 400 [] (error_body SessionAlreadyEnded),
     sample_store 2 (Some 2) 3,
     [QueryLatest (JStr "site") "42"; QueryLatest (JStr "site") "42"])
  /\ exists doc,
       sample_docs 1 None !! 0 = Some doc /\
       doc_data doc = sample_session 1 None /\
       handleRequest [] (sample_request (JStr "42") JUndefined (JStr "end"))
         (sample_store 1 None 2) =
         (mkResponse 200 []
            (StringifySession "Session ended. Data stored in Firestore."
               (Some (sample_session 2 (Some 2)))),
          mkFirestore
            (<[0 := mkSessionDoc (doc_website doc) (doc_fingerprint doc)
                      (sample_session 2 (Some 2))]>
               (sample_docs 1 None))
            3 accept_all,
          [QueryLatest (JStr "site") "42"; QueryLatest (JStr "site") "42";
           DocUpdate 0; DocGet 0]).
Proof.
  split; [|split].
  - refine (proj1 (C3_close [] (sample_request (JStr "42") JUndefined (JStr "end")) "42"
                     empty_store eq_refl eq_refl) _ eq_refl).
    discriminate.
  - exact (proj1 (proj2 (C3_close [] (sample_request (JStr "42") JUndefined (JStr "end"))
                           "42" (sample_store 2 (Some 2) 3) eq_refl eq_refl))
             0 (sample_session 2 (Some 2)) 2 eq_refl eq_refl).
  - exact (proj2 (proj2 (C3_close [] (sample_request (JStr "42") JUndefined (JStr "end"))
                           "42" (sample_store 1 None 2) eq_refl eq_refl))
             0 (sample_session 1 None) eq_refl eq_refl).
Defined.

Lemma C4_branch_selection_witness :
  handleRequest [] (sample_request (JStr "42") (JStr "click") (JStr "")) empty_store =
    catchAll []
      (snap <-? lift (query_latest (JStr "site") "42") ;;
       appendOrStart [] (sample_request (JStr "42") (JStr "click") (JStr "")) "42" snap)
      empty_store
  /\ handleRequest [] (sample_request (JStr "42") (JNum 0) (JStr "end")) empty_store =
       catchAll []
         (_ <-? lift (query_latest (JStr "site") "42") ;;
          endSession [] (sample_request (JStr "42") (JNum 0) (JStr "end")) "42")
         empty_store
  /\ handleRequest [] (sample_request (JStr "42") (JNum 0) JUndefined) empty_store =
       (notUpdated [] "42", empty_store, [QueryLatest (JStr "site") "42"]).
Proof.
  split; [|split].
  - refine (proj1 (C4_branch_selection []
             (sample_request (JStr "42") (JStr "click") (JStr "")) "42" empty_store eq_refl
             _) _).
    + discriminate.
    + split; [reflexivity | left; reflexivity].
  - refine (proj1 (proj2 (C4_branch_selection []
             (sample_request (JStr "42") (JNum 0) (JStr "end")) "42" empty_store eq_refl
             _)) _ _).
    + discriminate.
    + intros [H _]. discriminate H.
    + reflexivity.
  - refine (proj2 (proj2 (C4_branch_selection []
             (sample_request (JStr "42") (JNum 0) JUndefined) "42" empty_store eq_refl
             _)) _ _).
    + discriminate.
    + intros [H _]. discriminate H.
    + discriminate.
Defined.

(** C4, as stated, fails: [data] is present but falsy, [action] is absent,
    and the no-op branch runs. *)
Lemma C4_counterexample :
  ~ (forall (hdrs : Headers) (req : Request) (fp : string) (st : Firestore),
       normalizeFingerprint (req_fingerprint req) = inr fp ->
       sessionsCollRef (req_websiteName req) fp <> None ->
       req_data req <> JUndefined ->
       (req_action req = JUndefined \/ req_action req = JStr "append") ->
       handleRequest hdrs req st =
         catchAll hdrs
           (snap <-? lift (query_latest (req_websiteName req) fp) ;;
            appendOrStart hdrs req fp snap) st).
Proof.
  intros H.
  specialize (H [] (sample_request (JStr "42") (JNum 0) JUndefined) "42" empty_store
                eq_refl).
  assert (P : sessionsCollRef (JStr "site") "42" <> None) by discriminate.
  assert (E : JNum 0 <> JUndefined) by discriminate.
  specialize (H P E (or_introl eq_refl)).
  vm_compute in H. discriminate H.
Qed.

Lemma C8_noop_witness :
  exists ops,
    handleRequest [] (sample_request (JStr "42") JUndefined (JStr "pause"))
      (sample_store 0 None 1) =
      (mkResponse 200 []
         (Stringify (JObj [("message", JStr "Session not updated.");
                           ("fingerprint", JStr "42")])),
       sample_store 0 None 1,
       ops)
    /\ ops = [QueryLatest (JStr "site") "42"]
    /\ filter (fun op => is_write op = true) ops = [].
Proof.
  refine (C8_noop [] (sample_request (JStr "42") JUndefined (JStr "pause")) "42"
           (sample_store 0 None 1) eq_refl _ eq_refl eq_refl).
  discriminate.
Defined.

Lemma C9_endedAt_discriminates_witness :
  fst (fst (handleRequest []
              (sample_request (JStr "42") (JStr "click") JUndefined)
              (sample_store 2 (Some 2) 3)))
  = recorded [] true
  /\ fst (fst (handleRequest []
                 (sample_request (JStr "42") (JArr []) JUndefined)
                 (sample_store 2 None 3)))
  = internalError [] ArrayUnionWithoutElement
  /\ fst (fst (handleRequest []
                 (sample_request (JStr "42") JUndefined (JStr "end"))
                 (sample_store 2 (Some 2) 3)))
  = mkResponse 400 [] (error_body SessionAlreadyEnded).
Proof.
  split; [|split].
  - exact (proj1 (C9_endedAt_discriminates []
                    (sample_request (JStr "42") (JStr "click") JUndefined) "42"
                    (sample_store 2 (Some 2) 3) eq_refl 0 (sample_session 2 (Some 2))
                    eq_refl) eq_refl).
  - exact (proj1 (C9_endedAt_discriminates []
                    (sample_request (JStr "42") (JArr []) JUndefined) "42"
                    (sample_store 2 None 3) eq_refl 0 (sample_session 2 None)
                    eq_refl) eq_refl).
  - exact (proj2 (C9_endedAt_discriminates []
                    (sample_request (JStr "42") JUndefined (JStr "end")) "42"
                    (sample_store 2 (Some 2) 3) eq_refl 0 (sample_session 2 (Some 2))
                    eq_refl) eq_refl).
Defined.

(** ** What an invocation does to the documents *)

Lemma handleRequest_transition (hdrs : Headers) (req : Request) (st : Firestore) :
  Effect req st (store_of (handleRequest hdrs req st)).
Proof.
  destruct (normalizeFingerprint (req_fingerprint req)) as [msg | fp] eqn:Hfp.
  { unfold handleRequest, tryRequest. rewrite Hfp. apply EffectNone. }
  destruct (sessionsCollRef (req_websiteName req) fp) as [p|] eqn:Hp.
  2:{ rewrite (handleRequest_invalid_path hdrs req fp st Hfp Hp). apply EffectNone. }
  assert (Hpath : sessionsCollRef (req_websiteName req) fp <> None) by congruence.
  destruct (is_append req) eqn:Happ; [|destruct (is_end req) eqn:Hend].
  - assert (Hstart : (latest st (req_websiteName req) fp = None \/
              exists ref d t, latest st (req_websiteName req) fp = Some (ref, d) /\
                endedAt d = Some t) ->
            Effect req st (store_of (handleRequest hdrs req st))).
    { intros Hlatest. rewrite (handleRequest_start hdrs req fp st Hfp Happ Hpath Hlatest).
      destruct (set_refuses st _); [apply EffectNone|].
      now apply (EffectStart req st fp). }
    destruct (latest st (req_websiteName req) fp) as [[ref d]|] eqn:Hlatest;
      [|apply Hstart; now left].
    destruct (endedAt d) as [t|] eqn:Hd; [apply Hstart; right; now exists ref, d, t|].
    destruct (handleRequest_append hdrs req fp st Hfp ref d Happ Hlatest Hd)
      as (doc & Hdoc & <- & Hat & ->).
    destruct (arrayUnion_cases (items_of (req_data req)) st) as [-> | (err & ->)];
      [|apply EffectNone].
    now apply (EffectAppend req st fp ref doc).
  - rewrite (handleRequest_end hdrs req fp st Hfp Hend Hpath).
    destruct (latest st (req_websiteName req) fp) as [[ref d]|] eqn:Hlatest;
      [|apply EffectNone].
    unfold has_ended. destruct (endedAt d) as [t|] eqn:Hd; [apply EffectNone|].
    destruct (latest_Some _ _ _ _ _ Hlatest) as (doc & Hdoc & <- & Hat & _).
    unfold store_of. cbn [fst snd]. rewrite (alter_known _ _ _ _ Hdoc).
    now apply (EffectEnd req st fp ref doc).
  - rewrite (handleRequest_noop hdrs req fp st Hfp Happ Hend Hpath). apply EffectNone.
Qed.

(** The exported handler changes the store as lines 71-211 do for some
    request, or not at all. *)
Lemma handler_transition (JSON_parse : string -> option JsVal) (NODE_ENV : option string)
    (event : Event) (st : Firestore) :
  exists req, Effect req st (store_of (handler JSON_parse NODE_ENV event st)).
Proof.
  unfold handler.
  set (none := mkRequest JUndefined JUndefined JUndefined JUndefined JUndefined JUndefined).
  destruct (String.eqb (httpMethod event) "OPTIONS"); [exists none; apply EffectNone|].
  destruct (JSON_parse _) as [parsed|]; [|exists none; apply EffectNone].
  destruct (destructure parsed) as [req|]; [|exists none; apply EffectNone].
  exists req. apply handleRequest_transition.
Qed.

(** ** Sequential executions keep at most one open session per entry *)


Lemma store_inv_empty : store_inv empty_store.
Proof. repeat split; intros ? *; simpl; try rewrite lookup_nil; discriminate. Qed.

Lemma store_inv_elapse (dt : nat) (st : Firestore) : store_inv st -> store_inv (elapse dt st).
Proof.
  intros (Hvalid & Hpast & Hinc & Hsup). repeat split; try assumption.
  intros i d Hd. specialize (Hpast i d Hd). simpl. lia.
Qed.

(** A document of an updated list is a document of the list, changed or not. *)
Lemma insert_lookup_inv {A : Type} (l : list A) (i j : nat) (x y z : A) :
  l !! i = Some x -> <[i := z]> l !! j = Some y ->
  l !! j = Some y \/ (j = i /\ y = z).
Proof.
  intros Hx [(-> & -> & _) | [_ H]]%list_lookup_insert_Some; auto.
Qed.

(** An update that keeps the sub-collection and [startedAt] of a document
    and does not reopen it keeps the invariant. *)
Lemma store_inv_update (st : Firestore) (ref : nat) (doc doc' : SessionDoc) :
  docs st !! ref = Some doc ->
  doc_path doc' = doc_path doc ->
  startedAt (doc_data doc') = startedAt (doc_data doc) ->
  (is_open doc' -> is_open doc) ->
  store_inv st ->
  store_inv (mkFirestore (<[ref := doc']> (docs st)) (S (serverTime st)) (rules st)).
Proof.
  intros Hdoc Hpath Hstart Hopen (Hvalid & Hpast & Hinc & Hsup).
  assert (Hold : forall j y, <[ref := doc']> (docs st) !! j = Some y ->
            exists x, docs st !! j = Some x /\ doc_path y = doc_path x /\
              startedAt (doc_data y) = startedAt (doc_data x) /\
              (is_open y -> is_open x)).
  { intros j y Hy.
    destruct (insert_lookup_inv _ _ _ doc y doc' Hdoc Hy) as [H | [-> ->]].
    - exists y. repeat split; auto.
    - exists doc. repeat split; auto. }
  repeat split.
  - intros i d (x & Hx & -> & _)%Hold. now apply (Hvalid i).
  - intros i d (x & Hx & _ & -> & _)%Hold. specialize (Hpast i x Hx). simpl. lia.
  - intros i j di dj Hij (xi & Hxi & _ & -> & _)%Hold (xj & Hxj & _ & -> & _)%Hold.
    now apply (Hinc i j).
  - intros i j di dj Hij (xi & Hxi & Hpi & _ & Hoi)%Hold
      (xj & Hxj & Hpj & _ & _)%Hold Hsame Ho.
    apply (Hsup i j xi xj Hij Hxi Hxj); [congruence | now apply Hoi].
Qed.

(** Creating a session in a sub-collection whose most recent session is
    absent or closed keeps the invariant. *)
Lemma store_inv_create (st : Firestore) (w : JsVal) (fp : string) (fields : SessionData) :
  sessionsCollRef w fp <> None ->
  startedAt fields = serverTime st ->
  (latest st w fp = None \/
   exists ref d t, latest st w fp = Some (ref, d) /\ endedAt d = Some t) ->
  store_inv st ->
  store_inv (mkFirestore (docs st ++ [mkSessionDoc w fp fields]) (S (serverTime st)) (rules st)).
Proof.
  intros Hpath Hstart Hlatest (Hvalid & Hpast & Hinc & Hsup). repeat split.
  - intros i d [[_ Hd] | [_ <-]]%lookup_snoc_Some; [now apply (Hvalid i) | exact Hpath].
  - intros i d [[_ Hd] | [_ <-]]%lookup_snoc_Some; simpl.
    + specialize (Hpast i d Hd). lia.
    + lia.
  - intros i j di dj Hij [[_ Hi] | [-> <-]]%lookup_snoc_Some
      [[_ Hj] | [-> <-]]%lookup_snoc_Some; simpl.
    + now apply (Hinc i j).
    + specialize (Hpast i di Hi). lia.
    + apply lookup_lt_Some in Hj. lia.
    + lia.
  - intros i j di dj Hij [[_ Hi] | [-> <-]]%lookup_snoc_Some
      [[_ Hj] | [-> <-]]%lookup_snoc_Some Hsame Ho; simpl in *.
    + now apply (Hsup i j di dj).
    + assert (Hat : at_path w fp di = true).
      { apply at_path_iff. unfold doc_path in Hsame at 2. simpl in Hsame.
        destruct (sessionsCollRef w fp) as [p|]; [|contradiction]. now exists p. }
      destruct Hlatest as [Hnone | (ref & d & t & Hsome & Hd)].
      * rewrite (proj1 (latest_None _ _ _) Hnone i di Hi) in Hat. discriminate.
      * destruct (latest_Some _ _ _ _ _ Hsome) as (doc & Hdoc & Hdata & Hdp & Hmax).
        destruct (Nat.lt_trichotomy i ref) as [Hlt | [-> | Hgt]].
        -- apply (Hsup i ref di doc Hlt Hi Hdoc); [|exact Ho].
           now apply (at_path_same w fp).
        -- rewrite Hdoc in Hi. injection Hi as <-. unfold is_open in Ho. congruence.
        -- pose proof (Hinc ref i doc di Hgt Hdoc Hi) as Hlt.
           specialize (Hmax i di Hi Hat). rewrite Hdata in Hlt. lia.
    + apply lookup_lt_Some in Hj. lia.
    + lia.
Qed.

Lemma store_inv_effect (req : Request) (st st' : Firestore) :
  Effect req st st' -> store_inv st -> store_inv st'.
Proof.
  intros H Hinv.
  destruct H as [ | fp _ _ Hpath Hlatest | fp ref doc _ _ _ Hdoc _ Hopen
                | fp ref doc _ _ _ Hdoc _ Hopen ].
  - exact Hinv.
  - now apply store_inv_create.
  - apply (store_inv_update st ref doc); auto.
  - apply (store_inv_update st ref doc); auto.
Qed.

Lemma store_inv_handler (JSON_parse : string -> option JsVal) (NODE_ENV : option string)
    (event : Event) (st : Firestore) :
  store_inv st -> store_inv (snd (fst (handler JSON_parse NODE_ENV event st))).
Proof.
  intros Hinv. destruct (handler_transition JSON_parse NODE_ENV event st) as [req H].
  exact (store_inv_effect req _ _ H Hinv).
Qed.

Lemma store_inv_run (JSON_parse : string -> option JsVal) (NODE_ENV : option string)
    (steps : list (nat * Event)) (st : Firestore) :
  store_inv st -> store_inv (run JSON_parse NODE_ENV st steps).
Proof.
  revert st. induction steps as [|[dt event] steps IH]; intros st Hinv; [exact Hinv|].
  apply IH. unfold step. now apply store_inv_handler, store_inv_elapse.
Qed.

(** At most one session of each sub-collection is open, hence at most one
    of the sessions filed under one website name and one fingerprint. *)
Lemma store_inv_one_open_per_path (st : Firestore) (i j : nat) (di dj : SessionDoc) :
  store_inv st ->
  docs st !! i = Some di -> docs st !! j = Some dj ->
  doc_path di = doc_path dj -> is_open di -> is_open dj -> i = j.
Proof.
  intros (_ & _ & _ & Hsup) Hi Hj He Hoi Hoj.
  destruct (Nat.lt_trichotomy i j) as [Hlt | [-> | Hgt]]; [|reflexivity|].
  - destruct (Hsup i j di dj Hlt Hi Hj He Hoi).
  - destruct (Hsup j i dj di Hgt Hj Hi (eq_sym He) Hoj).
Qed.

Lemma store_inv_at_most_one_open (st : Firestore) : store_inv st -> at_most_one_open st.
Proof.
  intros Hinv i j di dj Hi Hj He Hoi Hoj.
  apply (store_inv_one_open_per_path st i j di dj Hinv Hi Hj); auto.
  now apply same_entry_path.
Qed.

(** C5. In every sequential execution of the handler from the empty store,
    whatever the requests and the time that passes between them, at most one
    session of each fingerprint entry is open. *)
Theorem C5_at_most_one_open (JSON_parse : string -> option JsVal)
    (NODE_ENV : option string) (steps : list (nat * Event)) :
  at_most_one_open (run JSON_parse NODE_ENV empty_store steps).
Proof. apply store_inv_at_most_one_open, store_inv_run, store_inv_empty. Qed.

(** ** The exported handler *)

(** A request other than the preflight whose body parses to an object is
    handled by lines 71-223 on the destructured body. *)
Lemma handler_handleRequest (JSON_parse : string -> option JsVal) (NODE_ENV : option string)
    (event : Event) (text : string) (parsed : JsVal) (req : Request) (st : Firestore) :
  httpMethod event <> "OPTIONS" ->
  event_body event = Some text -> text <> "" ->
  JSON_parse text = Some parsed ->
  destructure parsed = Some req ->
  handler JSON_parse NODE_ENV event st = handleRequest (corsHeadersOf NODE_ENV event) req st.
Proof.
  intros Hmethod Hbody Htext Hparse Hreq. unfold handler.
  destruct (String.eqb_spec (httpMethod event) "OPTIONS") as [E|_]; [contradiction|].
  rewrite Hbody. unfold or_string.
  destruct (String.eqb_spec text "") as [E|_]; [contradiction|].
  simpl. now rewrite Hparse, Hreq.
Qed.

(** C10. A request other than the CORS preflight whose body is absent or
    empty is parsed as the empty object: it is not rejected as invalid JSON
    but, having no fingerprint, with the 400 of [InvalidFingerprintType], and
    the store is not called. *)
Theorem C10_empty_body (JSON_parse : string -> option JsVal) (NODE_ENV : option string)
    (event : Event) (st : Firestore) :
  JSON_parse "{}" = Some (JObj []) ->
  httpMethod event <> "OPTIONS" ->
  event_body event = None \/ event_body event = Some "" ->
  handler JSON_parse NODE_ENV event st =
    (mkResponse 400 (corsHeadersOf NODE_ENV event) (error_body InvalidFingerprintType),
     st, []).
Proof.
  intros Hparse Hmethod Hbody. unfold handler.
  destruct (String.eqb_spec (httpMethod event) "OPTIONS") as [E|_]; [contradiction|].
  assert (Hdefault : default "{}" (or_string (event_body event) (Some "{}")) = "{}").
  { destruct Hbody as [-> | ->]; reflexivity. }
  rewrite Hdefault, Hparse. reflexivity.
Qed.

Lemma C10_empty_body_witness :
  handler parse_empty_object None (mkEvent "POST" None (Some "")) empty_store =
    (mkResponse 400 (corsHeadersOf None (mkEvent "POST" None (Some "")))
       (error_body InvalidFingerprintType),
     empty_store, []).
Proof.
  apply (C10_empty_body parse_empty_object None (mkEvent "POST" None (Some "")) empty_store).
  - reflexivity.
  - discriminate.
  - right. reflexivity.
Defined.

(** ** The scenario of the specification

    Fingerprint [42] sent as a number: a first append starts session S1, a
    second one extends it, "end" closes it, and the next append starts
    session S2. *)
Example scenario :
  let request := sample_request (JNum 42) in
  let '(r1, s1, _) := handleRequest [] (request (JStr "click") JUndefined) empty_store in
  let '(r2, s2, _) :=
    handleRequest [] (request (JArr [JStr "scroll"; JStr "hover"]) JUndefined) s1 in
  let '(r3, s3, _) := handleRequest [] (request JUndefined (JStr "end")) s2 in
  let '(r4, s4, _) := handleRequest [] (request (JStr "click") JUndefined) s3 in
  r1 = recorded [] true /\ r2 = recorded [] false /\ r4 = recorded [] true /\
  r3 = mkResponse 200 []
         (StringifySession "Session ended. Data stored in Firestore."
            (Some (mkSessionData (JStr "key") (JStr "tc") 0 2 (Some 2)
                     [JStr "click"; JStr "scroll"; JStr "hover"]))) /\
  docs s4 =
    [mkSessionDoc (JStr "site") "42"
       (mkSessionData (JStr "key") (JStr "tc") 0 2 (Some 2)
          [JStr "click"; JStr "scroll"; JStr "hover"]);
     mkSessionDoc (JStr "site") "42"
       (mkSessionData (JStr "key") (JStr "tc") 3 3 None [JStr "click"])].
Proof. repeat split. Qed.

(** The same scenario without [apiKey] and [tinyCode]: the first append is
    answered by the catch-all and no session is started. *)
Example scenario_untagged :
  handleRequest [] (untagged_request (JNum 42) (JStr "click") JUndefined) empty_store =
    (internalError [] SetRefused, empty_store, [QueryLatest (JStr "site") "42"]).
Proof. reflexivity. Qed.

(** The path of the sub-collection is what names it: a website name and a
    fingerprint with another cut of the same segments name the same
    sub-collection, and a website name that is missing or has an even
    number of segments names none. *)
Example sessionsCollRef_examples :
  sessionsCollRef (JStr "site") "42" = Some ["site"; "42"; "sessions"]
  /\ sessionsCollRef (JStr "site/a/b") "c" = sessionsCollRef (JStr "site") "a/b/c"
  /\ sessionsCollRef (JStr "/site/") "42" = sessionsCollRef (JStr "site") "42"
  /\ sessionsCollRef JUndefined "42" = None
  /\ sessionsCollRef (JStr "") "42" = None
  /\ sessionsCollRef (JStr "site") "a/b" = None
  /\ sessionsCollRef (JStr "a/b") "42" = None
  /\ sessionsCollRef (JStr "site//x/y") "42" = None.
Proof. repeat split. Qed.

(** * Further properties *)

(** X1. A closed session is never changed again: whatever the request, a
    document whose [endedAt] is set is the same document after the
    invocation. *)
Theorem closed_session_immutable (JSON_parse : string -> option JsVal)
    (NODE_ENV : option string) (event : Event) (st : Firestore) (i : nat) (d : SessionDoc) :
  docs st !! i = Some d ->
  endedAt (doc_data d) <> None ->
  docs (store_of (handler JSON_parse NODE_ENV event st)) !! i = Some d.
Proof.
  intros Hd Hclosed.
  destruct (handler_transition JSON_parse NODE_ENV event st) as [req H].
  destruct H as [ | fp _ _ _ _ | fp ref doc _ _ _ Hdoc _ Hopen
                | fp ref doc _ _ _ Hdoc _ Hopen ]; simpl.
  - exact Hd.
  - now apply lookup_app_l_Some.
  - destruct (decide (ref = i)) as [-> | Hne]; [congruence|].
    now rewrite list_lookup_insert_ne.
  - destruct (decide (ref = i)) as [-> | Hne]; [congruence|].
    now rewrite list_lookup_insert_ne.
Qed.

Lemma closed_session_immutable_witness :
  docs (store_of (handler parse_samples None (sample_event "data" "click")
                    (sample_store 2 (Some 2) 3))) !! 0 =
    Some (mkSessionDoc (JStr "site") "42" (sample_session 2 (Some 2))).
Proof.
  apply (closed_session_immutable parse_samples None (sample_event "data" "click")
           (sample_store 2 (Some 2) 3) 0).
  - reflexivity.
  - discriminate.
Defined.

(** X2. An invocation keeps every document in place, with its entry, its
    [apiKey], [tinyCode] and [startedAt]; [dataBatches] only grows at its
    end; [lastActivity] and [endedAt] stay or become the time of the write,
    and only an open session can be closed. *)
Theorem session_fields_preserved (JSON_parse : string -> option JsVal)
    (NODE_ENV : option string) (event : Event) (st : Firestore) (i : nat) (d : SessionDoc) :
  docs st !! i = Some d ->
  exists d',
    docs (store_of (handler JSON_parse NODE_ENV event st)) !! i = Some d' /\
    doc_website d' = doc_website d /\ doc_fingerprint d' = doc_fingerprint d /\
    apiKey (doc_data d') = apiKey (doc_data d) /\
    tinyCode (doc_data d') = tinyCode (doc_data d) /\
    startedAt (doc_data d') = startedAt (doc_data d) /\
    dataBatches (doc_data d) `prefix_of` dataBatches (doc_data d') /\
    (lastActivity (doc_data d') = lastActivity (doc_data d) \/
     lastActivity (doc_data d') = serverTime st) /\
    (endedAt (doc_data d') = endedAt (doc_data d) \/
     endedAt (doc_data d) = None /\ endedAt (doc_data d') = Some (serverTime st)).
Proof.
  intros Hd.
  assert (Hsame : exists d', Some d = Some d' /\
            doc_website d' = doc_website d /\ doc_fingerprint d' = doc_fingerprint d /\
            apiKey (doc_data d') = apiKey (doc_data d) /\
            tinyCode (doc_data d') = tinyCode (doc_data d) /\
            startedAt (doc_data d') = startedAt (doc_data d) /\
            dataBatches (doc_data d) `prefix_of` dataBatches (doc_data d') /\
            (lastActivity (doc_data d') = lastActivity (doc_data d) \/
             lastActivity (doc_data d') = serverTime st) /\
            (endedAt (doc_data d') = endedAt (doc_data d) \/
             endedAt (doc_data d) = None /\ endedAt (doc_data d') = Some (serverTime st))).
  { exists d. repeat split; auto. }
  destruct (handler_transition JSON_parse NODE_ENV event st) as [req H].
  destruct H as [ | fp _ _ _ _ | fp ref doc _ _ _ Hdoc _ Hopen
                | fp ref doc _ _ _ Hdoc _ Hopen ]; simpl.
  - now rewrite Hd.
  - now rewrite (lookup_app_l_Some _ _ _ _ Hd).
  - destruct (decide (ref = i)) as [-> | Hne];
      [|rewrite list_lookup_insert_ne by exact Hne; now rewrite Hd].
    rewrite list_lookup_insert_eq by (now apply lookup_lt_Some in Hd).
    assert (doc = d) by congruence. subst doc.
    eexists. split; [reflexivity|]. simpl.
    repeat split; auto. apply union_into_prefix.
  - destruct (decide (ref = i)) as [-> | Hne];
      [|rewrite list_lookup_insert_ne by exact Hne; now rewrite Hd].
    rewrite list_lookup_insert_eq by (now apply lookup_lt_Some in Hd).
    assert (doc = d) by congruence. subst doc.
    eexists. split; [reflexivity|]. simpl. repeat split; auto.
Qed.

Lemma session_fields_preserved_witness :
  exists d',
    docs (store_of (handler parse_samples None (sample_event "data" "click")
                      (sample_store 1 None 2))) !! 0 = Some d' /\
    startedAt (doc_data d') = 0 /\
    [JStr "click"] `prefix_of` dataBatches (doc_data d').
Proof.
  destruct (session_fields_preserved parse_samples None (sample_event "data" "click")
              (sample_store 1 None 2) 0
              (mkSessionDoc (JStr "site") "42" (sample_session 1 None)) eq_refl)
    as (d' & Hd' & _ & _ & _ & _ & Hstart & Hprefix & _).
  exists d'. repeat split; assumption.
Defined.

(** X3. A request changes no document of another sub-collection: a
    document that is not in the sub-collection named by the website name and
    the normalised fingerprint of the request is the same document
    afterwards. *)
Theorem other_entries_untouched (hdrs : Headers) (req : Request) (st : Firestore)
    (i : nat) (d : SessionDoc) :
  docs st !! i = Some d ->
  (forall fp, normalizeFingerprint (req_fingerprint req) = inr fp ->
     at_path (req_websiteName req) fp d = false) ->
  docs (store_of (handleRequest hdrs req st)) !! i = Some d.
Proof.
  intros Hd Hother.
  destruct (handleRequest_transition hdrs req st)
    as [ | fp Hfp _ _ _ | fp ref doc Hfp _ _ Hdoc Hat _
       | fp ref doc Hfp _ _ Hdoc Hat _ ]; simpl.
  - exact Hd.
  - now apply lookup_app_l_Some.
  - destruct (decide (ref = i)) as [-> | Hne];
      [|now rewrite list_lookup_insert_ne].
    assert (doc = d) by congruence. subst doc. rewrite (Hother fp Hfp) in Hat.
    discriminate.
  - destruct (decide (ref = i)) as [-> | Hne];
      [|now rewrite list_lookup_insert_ne].
    assert (doc = d) by congruence. subst doc. rewrite (Hother fp Hfp) in Hat.
    discriminate.
Qed.

Lemma other_entries_untouched_witness :
  docs (store_of (handleRequest [] (sample_request (JStr "43") (JStr "scroll") JUndefined)
                    (sample_store 1 None 2))) !! 0 =
    Some (mkSessionDoc (JStr "site") "42" (sample_session 1 None)).
Proof.
  apply (other_entries_untouched [] (sample_request (JStr "43") (JStr "scroll") JUndefined)
           (sample_store 1 None 2) 0).
  - reflexivity.
  - intros fp [= <-]. reflexivity.
Defined.

(** ** The responses of the handler *)

(** The outcomes of lines 71-223: response, store and calls on the store. *)
Lemma handleRequest_cases (hdrs : Headers) (req : Request) (st : Firestore) :
  let w := req_websiteName req in
  let r := handleRequest hdrs req st in
  (exists message, r = (mkResponse 400 hdrs (error_body message), st, []))
  \/ (exists err, r = (internalError hdrs err, st, []))
  \/ (exists fp err, r = (internalError hdrs err, st, [QueryLatest w fp]))
  \/ (exists fp, r = (notUpdated hdrs fp, st, [QueryLatest w fp]))
  \/ (exists fp code message,
        (code = 404 \/ code = 400) /\
        r = (mkResponse code hdrs (error_body message), st,
             [QueryLatest w fp; QueryLatest w fp]))
  \/ (exists fp d,
        r = (recorded hdrs true, mkFirestore (docs st ++ [d]) (S (serverTime st)) (rules st),
             [QueryLatest w fp; DocSet (length (docs st))]))
  \/ (exists fp ref d,
        r = (recorded hdrs false, mkFirestore (<[ref := d]> (docs st)) (S (serverTime st)) (rules st),
             [QueryLatest w fp; DocUpdate ref]))
  \/ (exists fp ref d session,
        r = (mkResponse 200 hdrs
               (StringifySession "Session ended. Data stored in Firestore." session),
             mkFirestore (<[ref := d]> (docs st)) (S (serverTime st)) (rules st),
             [QueryLatest w fp; QueryLatest w fp; DocUpdate ref; DocGet ref])).
Proof.
  intros w r. subst r.
  destruct (normalizeFingerprint (req_fingerprint req)) as [msg | fp] eqn:Hfp.
  { left. exists msg. unfold handleRequest, tryRequest. now rewrite Hfp. }
  right. destruct (sessionsCollRef w fp) as [p|] eqn:Hp.
  2:{ left. exists InvalidResourcePath. now apply (handleRequest_invalid_path hdrs req fp). }
  right. assert (Hpath : sessionsCollRef w fp <> None) by congruence.
  destruct (is_append req) eqn:Happ; [|destruct (is_end req) eqn:Hend].
  - assert (Hstart : (latest st w fp = None \/
              exists ref d t, latest st w fp = Some (ref, d) /\ endedAt d = Some t) ->
            (exists fp err,
               handleRequest hdrs req st = (internalError hdrs err, st, [QueryLatest w fp]))
            \/ (exists fp d,
                  handleRequest hdrs req st =
                    (recorded hdrs true, mkFirestore (docs st ++ [d]) (S (serverTime st)) (rules st),
                     [QueryLatest w fp; DocSet (length (docs st))]))).
    { intros Hlatest. rewrite (handleRequest_start hdrs req fp st Hfp Happ Hpath Hlatest).
      destruct (set_refuses st _); [left | right]; eexists fp, _; reflexivity. }
    destruct (latest st w fp) as [[ref d]|] eqn:Hlatest.
    + destruct (endedAt d) as [t|] eqn:Hd.
      * destruct Hstart as [H | H]; [right; now exists ref, d, t | now left | auto 6].
      * destruct (handleRequest_append hdrs req fp st Hfp ref d Happ Hlatest Hd)
          as (doc & _ & _ & _ & ->).
        destruct (arrayUnion_cases (items_of (req_data req)) st) as [-> | (err & ->)].
        -- do 4 right. left. eexists fp, ref, _. reflexivity.
        -- left. now exists fp, err.
    + destruct Hstart as [H | H]; [now left | now left | auto 6].
  - rewrite (handleRequest_end hdrs req fp st Hfp Hend Hpath). fold w.
    destruct (latest st w fp) as [[ref d]|] eqn:Hlatest.
    + unfold has_ended. destruct (endedAt d) as [t|] eqn:Hd.
      * do 2 right. left. exists fp, 400, SessionAlreadyEnded.
        split; [now right | reflexivity].
      * do 5 right.
        destruct (latest_Some _ _ _ _ _ Hlatest) as (doc & Hdoc & _).
        rewrite (alter_known _ _ _ _ Hdoc).
        eexists fp, ref, _, _. reflexivity.
    + do 2 right. left. exists fp, 404, NoActiveSession. split; [now left | reflexivity].
  - right. left. exists fp. now apply handleRequest_noop.
Qed.

Lemma handler_cases (JSON_parse : string -> option JsVal) (NODE_ENV : option string)
    (event : Event) (st : Firestore) :
  let hdrs := corsHeadersOf NODE_ENV event in
  let r := handler JSON_parse NODE_ENV event st in
  (exists code body,
     (code = 204 /\ body = EmptyBody \/
      code = 400 /\ body = error_body InvalidRequestBody \/
      code = 500 /\ body = StringifyError DestructureNull) /\
     r = (mkResponse code hdrs body, st, []))
  \/ (exists req, r = handleRequest hdrs req st).
Proof.
  intros hdrs r. subst r. unfold handler. fold hdrs.
  destruct (String.eqb (httpMethod event) "OPTIONS"); [left; eexists 204, _; eauto|].
  destruct (JSON_parse _) as [parsed|]; [|left; eexists 400, _; eauto].
  destruct (destructure parsed) as [req|]; [|left; eexists 500, _; eauto 6].
  right. now exists req.
Qed.

(** X4. Every response of the handler, the errors included, carries the
    CORS headers computed from the origin of the request. *)
Theorem handler_cors_on_every_response (JSON_parse : string -> option JsVal)
    (NODE_ENV : option string) (event : Event) (st : Firestore) :
  headers (response_of (handler JSON_parse NODE_ENV event st)) =
    corsHeadersOf NODE_ENV event.
Proof.
  destruct (handler_cases JSON_parse NODE_ENV event st)
    as [(code & body & _ & ->) | (req & ->)]; [reflexivity|].
  destruct (handleRequest_cases (corsHeadersOf NODE_ENV event) req st)
    as [(? & ->) | [(? & ->) | [(? & ? & ->) | [(? & ->) | [(? & ? & ? & _ & ->)
       | [(? & ? & ->) | [(? & ? & ? & ->) | (? & ? & ? & ? & ->)]]]]]]]; reflexivity.
Qed.

(** X5. The status of a response is 200, 204, 400, 404 or 500; the store is
    written only by an invocation that answers 200, at most once, and an
    invocation that does not write leaves the store as it was; no invocation
    makes more than four calls on the store. *)
Theorem handler_status_and_writes (JSON_parse : string -> option JsVal)
    (NODE_ENV : option string) (event : Event) (st : Firestore) :
  let r := handler JSON_parse NODE_ENV event st in
  In (statusCode (response_of r)) [200; 204; 400; 404; 500]
  /\ (statusCode (response_of r) <> 200 -> writes (calls_of r) = [])
  /\ (writes (calls_of r) = [] -> store_of r = st)
  /\ length (writes (calls_of r)) <= 1
  /\ length (calls_of r) <= 4.
Proof.
  intros r. subst r.
  destruct (handler_cases JSON_parse NODE_ENV event st)
    as [(code & body & Hcode & ->) | (req & ->)].
  - simpl. repeat split; lia.
  - destruct (handleRequest_cases (corsHeadersOf NODE_ENV event) req st)
      as [(? & ->) | [(? & ->) | [(? & ? & ->) | [(? & ->)
         | [(? & ? & ? & [-> | ->] & ->) | [(? & ? & ->)
         | [(? & ? & ? & ->) | (? & ? & ? & ? & ->)]]]]]]];
      simpl; repeat split; auto 6; try lia; try congruence; try discriminate.
Qed.

Lemma handler_status_and_writes_witness :
  writes (calls_of (handler parse_samples None (sample_event "action" "end") empty_store))
    = []
  /\ store_of (handler parse_samples None (sample_event "action" "end") empty_store)
    = empty_store.
Proof.
  destruct (handler_status_and_writes parse_samples None (sample_event "action" "end")
              empty_store) as (_ & Hstatus & Hstore & _).
  assert (H : writes (calls_of (handler parse_samples None (sample_event "action" "end")
                                  empty_store)) = []).
  { apply Hstatus. discriminate. }
  split; [exact H | exact (Hstore H)].
Defined.

(** X6. [newSessionStarted = true] is answered exactly when a document was
    created: the response is the one of a started session if and only if
    the store has one more document, added after the others; after any other
    response the store has the same number of documents. *)
Theorem newSessionStarted_reports_creation (JSON_parse : string -> option JsVal)
    (NODE_ENV : option string) (event : Event) (st : Firestore) :
  let r := handler JSON_parse NODE_ENV event st in
  (body (response_of r) = body (recorded [] true) <->
   exists d, docs (store_of r) = docs st ++ [d])
  /\ (body (response_of r) <> body (recorded [] true) ->
      length (docs (store_of r)) = length (docs st)).
Proof.
  intros r. subst r.
  assert (Hgrow : forall d : SessionDoc, docs st <> docs st ++ [d]).
  { intros d H. apply (f_equal length) in H. rewrite length_app in H. simpl in H. lia. }
  assert (Hins : forall ref (d e : SessionDoc), <[ref := d]> (docs st) <> docs st ++ [e]).
  { intros ref d e H. apply (f_equal length) in H.
    rewrite length_insert, length_app in H. simpl in H. lia. }
  destruct (handler_cases JSON_parse NODE_ENV event st)
    as [(code & bd & Hcode & ->) | (req & ->)].
  - simpl. split; [split|reflexivity].
    + destruct Hcode as [[_ ->] | [[_ ->] | [_ ->]]]; discriminate.
    + intros [d H]. now destruct (Hgrow d).
  - destruct (handleRequest_cases (corsHeadersOf NODE_ENV event) req st)
      as [(? & ->) | [(? & ->) | [(? & ? & ->) | [(? & ->) | [(? & ? & ? & _ & ->)
         | [(? & d & ->) | [(? & ? & ? & ->) | (? & ? & ? & ? & ->)]]]]]]]; simpl;
      (split; [split|]); try discriminate; try reflexivity;
      try (intros [e H]; now destruct (Hgrow e));
      try (intros [e H]; now destruct (Hins _ _ _ H));
      try (intros _; apply length_insert).
    + intros _. now exists d.
    + intros H. now destruct H.
Qed.

Lemma newSessionStarted_reports_creation_witness :
  length (docs (store_of (handler parse_samples None (sample_event "action" "end")
                            (sample_store 1 None 2)))) = 1.
Proof.
  apply (newSessionStarted_reports_creation parse_samples None (sample_event "action" "end")
           (sample_store 1 None 2)).
  discriminate.
Defined.

(** X7. Requests answered without the store: the preflight is answered 204
    with an empty body whatever its body; otherwise a body that is not JSON
    is answered 400 and a body that is the JSON [null] is answered 500,
    through the catch-all of lines 213-223. *)
Theorem handler_early_exits (JSON_parse : string -> option JsVal)
    (NODE_ENV : option string) (event : Event) (st : Firestore) (text : string) :
  let hdrs := corsHeadersOf NODE_ENV event in
  (httpMethod event = "OPTIONS" ->
   handler JSON_parse NODE_ENV event st = (mkResponse 204 hdrs EmptyBody, st, []))
  /\ (httpMethod event <> "OPTIONS" ->
      event_body event = Some text -> text <> "" ->
      (JSON_parse text = None ->
       handler JSON_parse NODE_ENV event st =
         (mkResponse 400 hdrs (error_body InvalidRequestBody), st, []))
      /\ (JSON_parse text = Some JNull ->
          statusCode (response_of (handler JSON_parse NODE_ENV event st)) = 500 /\
          store_of (handler JSON_parse NODE_ENV event st) = st /\
          calls_of (handler JSON_parse NODE_ENV event st) = [])).
Proof.
  intros hdrs. unfold handler. fold hdrs. split.
  - intros ->. reflexivity.
  - intros Hmethod Hbody Htext.
    destruct (String.eqb_spec (httpMethod event) "OPTIONS") as [E|_]; [contradiction|].
    rewrite Hbody. unfold or_string.
    destruct (String.eqb_spec text "") as [E|_]; [contradiction|]. simpl.
    split; intros ->; repeat split.
Qed.

Lemma handler_early_exits_witness :
  handler parse_literals None (mkEvent "OPTIONS" None (Some "{oops")) empty_store =
    (mkResponse 204 (corsHeadersOf None (mkEvent "OPTIONS" None (Some "{oops"))) EmptyBody,
     empty_store, [])
  /\ handler parse_literals None (mkEvent "POST" None (Some "{oops")) empty_store =
    (mkResponse 400 (corsHeadersOf None (mkEvent "POST" None (Some "{oops")))
       (error_body InvalidRequestBody), empty_store, [])
  /\ statusCode (response_of (handler parse_literals None (mkEvent "POST" None (Some "null"))
                                empty_store)) = 500.
Proof.
  split; [|split].
  - exact (proj1 (handler_early_exits parse_literals None
                    (mkEvent "OPTIONS" None (Some "{oops")) empty_store "{oops") eq_refl).
  - refine (proj1 (proj2 (handler_early_exits parse_literals None
                            (mkEvent "POST" None (Some "{oops")) empty_store "{oops")
                     _ eq_refl _) eq_refl); discriminate.
  - refine (proj1 (proj2 (proj2 (handler_early_exits parse_literals None
                            (mkEvent "POST" None (Some "null")) empty_store "null")
                     _ eq_refl _) eq_refl)); discriminate.
Defined.

(** X8. A body that parses to a value without a [fingerprint] property (a
    boolean, a number, a string, an array, or an object that lacks it) is
    rejected with the 400 of [InvalidFingerprintType], without any call on
    the store. *)
Theorem handler_without_fingerprint (JSON_parse : string -> option JsVal)
    (NODE_ENV : option string) (event : Event) (st : Firestore) (text : string)
    (parsed : JsVal) :
  httpMethod event <> "OPTIONS" ->
  event_body event = Some text -> text <> "" ->
  JSON_parse text = Some parsed ->
  match parsed with
  | JUndefined | JNull => False
  | JObj fields => lookup_field "fingerprint" fields = JUndefined
  | _ => True
  end ->
  handler JSON_parse NODE_ENV event st =
    (mkResponse 400 (corsHeadersOf NODE_ENV event) (error_body InvalidFingerprintType),
     st, []).
Proof.
  intros Hmethod Hbody Htext Hparse Hshape. unfold handler.
  destruct (String.eqb_spec (httpMethod event) "OPTIONS") as [E|_]; [contradiction|].
  rewrite Hbody. unfold or_string.
  destruct (String.eqb_spec text "") as [E|_]; [contradiction|]. simpl.
  rewrite Hparse.
  destruct parsed as [ | | b | n | x | s | items | fields]; try contradiction;
    try reflexivity.
  simpl. unfold catchAll, tryRequest. simpl. rewrite Hshape. reflexivity.
Qed.

Lemma handler_without_fingerprint_witness :
  handler parse_literals None (mkEvent "POST" None (Some "[]")) empty_store =
    (mkResponse 400 (corsHeadersOf None (mkEvent "POST" None (Some "[]")))
       (error_body InvalidFingerprintType), empty_store, []).
Proof.
  apply (handler_without_fingerprint parse_literals None (mkEvent "POST" None (Some "[]"))
           empty_store "[]" (JArr [])); try reflexivity; try discriminate.
Defined.

(** ** The CORS headers *)

(** X9. The allowed origin is the origin of the request when it is one of
    the two development origins and [*] otherwise; [NODE_ENV] has no
    influence on the headers. *)
Theorem getCorsHeaders_allow_origin (NODE_ENV : option string) (origin : option string) :
  getCorsHeaders NODE_ENV origin = getCorsHeaders None origin
  /\ header_value "Access-Control-Allow-Origin" (getCorsHeaders NODE_ENV origin) =
       Some (match origin with
             | Some o =>
                 if String.eqb o "http://127.0.0.1:5501" || String.eqb o "http://localhost:5501"
                 then o else "*"
             | None => "*"
             end).
Proof.
  unfold getCorsHeaders, header_value, header_of, includes. simpl.
  destruct origin as [o|]; simpl.
  - destruct (String.eqb_spec o "http://127.0.0.1:5501") as [-> | _]; simpl;
      [now split|].
    destruct (String.eqb_spec o "http://localhost:5501") as [-> | _]; simpl;
      [now split|].
    destruct NODE_ENV as [e|]; [destruct (String.eqb e "development")|]; now split.
  - destruct NODE_ENV as [e|]; [destruct (String.eqb e "development")|]; now split.
Qed.

(** ** Timestamps and keys in sequential executions *)

Lemma run_invariant (P : Firestore -> Prop) (JSON_parse : string -> option JsVal)
    (NODE_ENV : option string) :
  (forall dt st, P st -> P (elapse dt st)) ->
  (forall req st st', Effect req st st' -> P st -> P st') ->
  forall steps st, P st -> P (run JSON_parse NODE_ENV st steps).
Proof.
  intros Helapse Heffect steps.
  induction steps as [|[dt event] steps IH]; intros st Hst; [exact Hst|].
  apply IH. unfold step. simpl.
  destruct (handler_transition JSON_parse NODE_ENV event (elapse dt st)) as [req H].
  apply (Heffect req _ _ H). now apply Helapse.
Qed.

Lemma times_ok_effect (req : Request) (st st' : Firestore) :
  Effect req st st' -> times_ok st -> times_ok st'.
Proof.
  intros H Hok.
  assert (Hold : forall i d, docs st !! i = Some d ->
            session_times_ok (S (serverTime st)) (doc_data d)).
  { intros i d Hd. destruct (Hok i d Hd) as (? & ? & ?). repeat split; auto; lia. }
  destruct H as [ | fp _ _ _ _ | fp ref doc _ _ _ Hdoc _ Hopen
                | fp ref doc _ _ _ Hdoc _ Hopen ]; intros i d; simpl.
  - apply Hok.
  - intros [[_ Hd] | [_ <-]]%lookup_snoc_Some; [now apply (Hold i)|].
    repeat split; simpl; try lia; congruence.
  - intros [(-> & <- & _) | [_ Hd]]%list_lookup_insert_Some; [|now apply (Hold i)].
    destruct (Hok _ _ Hdoc) as (? & ? & _). repeat split; simpl; try lia; congruence.
  - intros [(-> & <- & _) | [_ Hd]]%list_lookup_insert_Some; [|now apply (Hold i)].
    destruct (Hok _ _ Hdoc) as (? & ? & _). repeat split; simpl; try lia; congruence.
Qed.

(** X10. In every sequential execution from the empty store, each session
    started no later than its last activity, its last activity is in the
    past of the server clock, and a closed session was closed at its last
    activity. *)
Theorem run_times_ok (JSON_parse : string -> option JsVal) (NODE_ENV : option string)
    (steps : list (nat * Event)) :
  times_ok (run JSON_parse NODE_ENV empty_store steps).
Proof.
  apply run_invariant.
  - intros dt st Hok i d Hd. destruct (Hok i d Hd) as (? & ? & ?).
    repeat split; auto. simpl. lia.
  - apply times_ok_effect.
  - intros i d Hd. simpl in Hd. rewrite lookup_nil in Hd. discriminate.
Qed.

Lemma keys_ok_effect (req : Request) (st st' : Firestore) :
  Effect req st st' -> keys_ok st -> keys_ok st'.
Proof.
  intros H Hok.
  destruct H as [ | fp Hfp _ _ _ | fp ref doc _ _ _ Hdoc _ _
                | fp ref doc _ _ _ Hdoc _ _ ]; intros i d; simpl.
  - apply Hok.
  - intros [[_ Hd] | [_ <-]]%lookup_snoc_Some; [now apply (Hok i)|].
    simpl. now apply (normalizeFingerprint_inr (req_fingerprint req)).
  - intros [(-> & <- & _) | [_ Hd]]%list_lookup_insert_Some; [|now apply (Hok i)].
    simpl. now apply (Hok _ _ Hdoc).
  - intros [(-> & <- & _) | [_ Hd]]%list_lookup_insert_Some; [|now apply (Hok i)].
    simpl. now apply (Hok _ _ Hdoc).
Qed.

(** X11. In every sequential execution from the empty store, every session
    is filed under a fingerprint that is trimmed and not empty. *)
Theorem run_keys_ok (JSON_parse : string -> option JsVal) (NODE_ENV : option string)
    (steps : list (nat * Event)) :
  keys_ok (run JSON_parse NODE_ENV empty_store steps).
Proof.
  apply run_invariant.
  - intros dt st Hok. exact Hok.
  - apply keys_ok_effect.
  - intros i d Hd. simpl in Hd. rewrite lookup_nil in Hd. discriminate.
Qed.

(** ** Consecutive requests on one entry *)

(** The most recent session of an entry after a write. *)
Lemma latest_from_same_keys (w : JsVal) (fp : string) (l l' : list SessionDoc) :
  Forall2 (fun a b => at_path w fp a = at_path w fp b /\
                      startedAt (doc_data a) = startedAt (doc_data b)) l l' ->
  forall i,
    option_Forall2 (fun x y => fst x = fst y /\ startedAt (snd x) = startedAt (snd y))
      (latest_from i l w fp) (latest_from i l' w fp).
Proof.
  induction 1 as [|a b l l' [Hp Hs] _ IH]; intros i; simpl; [constructor|].
  rewrite <- Hp. specialize (IH (S i)).
  destruct (at_path w fp a).
  - destruct IH as [[j e] [j' e'] [Hj He] | ]; simpl in *.
    + rewrite <- Hs, <- He.
      destruct (startedAt (doc_data a) <=? startedAt e)%nat; constructor; simpl; auto.
    + constructor; simpl; auto.
  - exact IH.
Qed.

Lemma latest_after_update (st : Firestore) (w : JsVal) (fp : string) (ref : nat)
    (doc doc' : SessionDoc) (time : Timestamp) :
  latest st w fp = Some (ref, doc_data doc) ->
  docs st !! ref = Some doc ->
  doc_website doc' = doc_website doc -> doc_fingerprint doc' = doc_fingerprint doc ->
  startedAt (doc_data doc') = startedAt (doc_data doc) ->
  latest (mkFirestore (<[ref := doc']> (docs st)) time (rules st)) w fp = Some (ref, doc_data doc').
Proof.
  intros Hlatest Hdoc Hw Hf Hs. unfold latest in *. simpl.
  assert (Hrel : Forall2 (fun a b => at_path w fp a = at_path w fp b /\
                   startedAt (doc_data a) = startedAt (doc_data b))
                   (docs st) (<[ref := doc']> (docs st))).
  { rewrite <- (list_insert_id _ _ _ Hdoc) at 1. apply Forall2_insert.
    - apply Forall2_same_length_lookup_2; [reflexivity|].
      intros i x y Hx Hy. assert (x = y) by congruence. now subst.
    - unfold at_path, doc_path. now rewrite Hw, Hf, Hs. }
  pose proof (latest_from_same_keys w fp _ _ Hrel 0) as H.
  rewrite Hlatest in H. inversion H as [x [k e] [Hk _] Hx Hy | ]; subst. simpl in Hk. subst k.
  symmetry in Hy. destruct (latest_from_Some _ _ _ _ _ _ Hy) as (d & _ & Hd & He & _).
  rewrite Nat.sub_0_r, list_lookup_insert_eq in Hd by (now apply lookup_lt_Some in Hdoc).
  congruence.
Qed.

Lemma latest_from_after_create (w : JsVal) (fp : string) (new : SessionDoc)
    (l : list SessionDoc) (i : nat) :
  at_path w fp new = true ->
  (forall j d, l !! j = Some d -> startedAt (doc_data d) <= startedAt (doc_data new)) ->
  latest_from i (l ++ [new]) w fp = Some (i + length l, doc_data new).
Proof.
  intros Hp. revert i. induction l as [|d l IH]; intros i Hmax; simpl.
  - rewrite Hp. now rewrite Nat.add_0_r.
  - rewrite (IH (S i)) by (intros j e He; apply (Hmax (S j) e He)).
    replace (S i + length l) with (i + S (length l)) by lia.
    destruct (at_path w fp d); [|reflexivity].
    specialize (Hmax 0 d eq_refl). apply Nat.leb_le in Hmax. now rewrite Hmax.
Qed.

Lemma latest_after_create (st : Firestore) (w : JsVal) (fp : string)
    (fields : SessionData) (time : Timestamp) :
  sessionsCollRef w fp <> None ->
  started_in_past st -> startedAt fields = serverTime st ->
  latest (mkFirestore (docs st ++ [mkSessionDoc w fp fields]) time (rules st)) w fp =
    Some (length (docs st), fields).
Proof.
  intros Hpath Hpast Hs. unfold latest. simpl.
  rewrite (latest_from_after_create w fp (mkSessionDoc w fp fields)); [reflexivity| |].
  - now apply (at_path_self (mkSessionDoc w fp fields)).
  - intros j d Hd. specialize (Hpast j d Hd). simpl. lia.
Qed.

Lemma union_into_absorb (elements arr : list JsVal) :
  (forall x, In x elements -> existsb (store_eqb x) arr = true) ->
  union_into arr elements = arr.
Proof.
  induction elements as [|e rest IH]; intros Hin; simpl; [reflexivity|].
  rewrite (Hin e (or_introl eq_refl)). apply IH. intros x Hx. apply Hin. now right.
Qed.

Lemma union_into_idem (elements arr : list JsVal) :
  union_into (union_into arr elements) elements = union_into arr elements.
Proof.
  apply union_into_absorb. intros x Hx.
  destruct (union_into_spec elements arr) as (added & -> & _ & Hcov & _).
  now apply Hcov.
Qed.

Section TwoRequests.

Variables (hdrs hdrs' : Headers) (req req' : Request) (fp : string).
Variables (st : Firestore) (dt : nat).
Hypothesis Hfp : normalizeFingerprint (req_fingerprint req) = inr fp.
Hypothesis Hfp' : normalizeFingerprint (req_fingerprint req') = inr fp.
Hypothesis Hw : req_websiteName req' = req_websiteName req.

(** The store after the [update] of the close branch. *)
Lemma handleRequest_end_open (ref : nat) (doc : SessionDoc) :
  is_end req = true ->
  latest st (req_websiteName req) fp = Some (ref, doc_data doc) ->
  docs st !! ref = Some doc ->
  endedAt (doc_data doc) = None ->
  store_of (handleRequest hdrs req st) =
    mkFirestore
      (<[ref := mkSessionDoc (doc_website doc) (doc_fingerprint doc)
                  (mkSessionData (apiKey (doc_data doc)) (tinyCode (doc_data doc))
                     (startedAt (doc_data doc)) (serverTime st) (Some (serverTime st))
                     (dataBatches (doc_data doc)))]> (docs st))
      (S (serverTime st)) (rules st).
Proof.
  intros Hend Hlatest Hdoc Hopen.
  rewrite (handleRequest_end hdrs req fp st Hfp Hend (latest_valid _ _ _ _ _ Hlatest)).
  rewrite Hlatest. unfold has_ended. rewrite Hopen. unfold store_of. cbn [fst snd].
  now rewrite (alter_known _ _ _ _ Hdoc).
Qed.

(** The store after the [update] of the append/start branch. *)
Lemma handleRequest_append_open (ref : nat) (doc : SessionDoc) :
  is_append req = true ->
  latest st (req_websiteName req) fp = Some (ref, doc_data doc) ->
  docs st !! ref = Some doc ->
  endedAt (doc_data doc) = None ->
  items_of (req_data req) <> [] -> has_undefined (req_data req) = false ->
  valid_elements (rules st) (items_of (req_data req)) = true ->
  handleRequest hdrs req st =
    (recorded hdrs false,
     mkFirestore
       (<[ref := mkSessionDoc (doc_website doc) (doc_fingerprint doc)
                   (mkSessionData (apiKey (doc_data doc)) (tinyCode (doc_data doc))
                      (startedAt (doc_data doc)) (serverTime st) None
                      (union_into (dataBatches (doc_data doc))
                         (items_of (req_data req))))]> (docs st))
       (S (serverTime st)) (rules st),
     [QueryLatest (req_websiteName req) fp; DocUpdate ref]).
Proof.
  intros Happ Hlatest Hdoc Hopen Hne Hdef Hvalid.
  destruct (handleRequest_append hdrs req fp st Hfp ref _ Happ Hlatest Hopen)
    as (doc0 & Hdoc0 & _ & _ & ->).
  assert (doc0 = doc) by congruence. subst doc0.
  now rewrite (arrayUnion_accepts _ st Hne (items_of_defined _ Hdef) Hvalid).
Qed.

(** X12. Closing is not repeated: after a request that closed the open
    session of an entry, a second "end" for the entry, however much later,
    is answered 400 with [SessionAlreadyEnded] and writes nothing. *)
Theorem close_twice_rejected (ref : nat) (d : SessionData) :
  is_end req = true -> is_end req' = true ->
  latest st (req_websiteName req) fp = Some (ref, d) -> endedAt d = None ->
  let st1 := elapse dt (store_of (handleRequest hdrs req st)) in
  handleRequest hdrs' req' st1 =
    (mkResponse 400 hdrs' (error_body SessionAlreadyEnded), st1,
     [QueryLatest (req_websiteName req) fp; QueryLatest (req_websiteName req) fp]).
Proof.
  intros Hend Hend' Hlatest Hopen st1. subst st1.
  destruct (latest_Some _ _ _ _ _ Hlatest) as (doc & Hdoc & <- & _).
  rewrite (handleRequest_end_open ref doc Hend Hlatest Hdoc Hopen).
  rewrite <- Hw.
  rewrite (handleRequest_end hdrs' req' fp _ Hfp' Hend');
    [|rewrite Hw; exact (latest_valid _ _ _ _ _ Hlatest)].
  rewrite Hw. unfold elapse at 1. cbn [docs].
  rewrite (latest_after_update st _ _ ref doc _ _ Hlatest Hdoc); reflexivity.
Qed.

(** X13. After a request that closed the open session of an entry, the next
    append for the entry, when [set] accepts its document (its [apiKey], its
    [tinyCode] and its [data] hold no [undefined] and the rules of the store
    allow the document), does not touch the closed session: it starts a new
    one, stamped with the time of the write, after the documents that were
    there. *)
Theorem append_after_close_starts_new (ref : nat) (d : SessionData) :
  is_end req = true -> is_append req' = true ->
  latest st (req_websiteName req) fp = Some (ref, d) -> endedAt d = None ->
  let st1 := elapse dt (store_of (handleRequest hdrs req st)) in
  let fields :=
    mkSessionData (req_apiKey req') (req_tinyCode req') (serverTime st1)
      (serverTime st1) None (items_of (req_data req')) in
  has_undefined (req_apiKey req') = false -> has_undefined (req_tinyCode req') = false ->
  has_undefined (req_data req') = false -> valid_document (rules st) fields = true ->
  response_of (handleRequest hdrs' req' st1) = recorded hdrs' true
  /\ docs (store_of (handleRequest hdrs' req' st1)) =
       docs st1 ++ [mkSessionDoc (req_websiteName req) fp fields].
Proof.
  intros Hend Happ' Hlatest Hopen st1 fields Hkey Htiny Hdata Hvalid. subst st1 fields.
  destruct (latest_Some _ _ _ _ _ Hlatest) as (doc & Hdoc & <- & _).
  rewrite (handleRequest_end_open ref doc Hend Hlatest Hdoc Hopen) in *.
  rewrite (handleRequest_start hdrs' req' fp _ Hfp' Happ').
  - rewrite (proj2 (set_refuses_false _ _)), Hw; [split; reflexivity|].
    cbn [apiKey tinyCode dataBatches]. repeat split; try assumption.
    now apply items_of_defined.
  - rewrite Hw. exact (latest_valid _ _ _ _ _ Hlatest).
  - right. eexists ref, _, (serverTime st).
    split; [rewrite Hw; now apply (latest_after_update st _ _ ref doc) | reflexivity].
Qed.

(** X14. In a store whose sessions all started in the past, the append that
    follows the start of a session goes to that session, when both writes
    are accepted (the website name and the fingerprint name a
    sub-collection; the first request holds no [undefined] and the rules of
    the store allow its document; the second has at least one item of
    [data], without [undefined], and the rules of the store allow its
    items): no session is started, and the session keeps the [apiKey],
    [tinyCode] and [startedAt] of the request that started it, with the
    items of both requests. *)
Theorem append_after_start_same_session :
  started_in_past st ->
  sessionsCollRef (req_websiteName req) fp <> None ->
  is_append req = true -> is_append req' = true ->
  has_undefined (req_apiKey req) = false -> has_undefined (req_tinyCode req) = false ->
  has_undefined (req_data req) = false ->
  valid_document (rules st)
    (mkSessionData (req_apiKey req) (req_tinyCode req) (serverTime st) (serverTime st)
       None (items_of (req_data req))) = true ->
  items_of (req_data req') <> [] -> has_undefined (req_data req') = false ->
  valid_elements (rules st) (items_of (req_data req')) = true ->
  (latest st (req_websiteName req) fp = None \/
   exists ref d t, latest st (req_websiteName req) fp = Some (ref, d) /\ endedAt d = Some t) ->
  let st1 := elapse dt (store_of (handleRequest hdrs req st)) in
  response_of (handleRequest hdrs' req' st1) = recorded hdrs' false
  /\ docs (store_of (handleRequest hdrs' req' st1)) =
       docs st ++
       [mkSessionDoc (req_websiteName req) fp
          (mkSessionData (req_apiKey req) (req_tinyCode req) (serverTime st)
             (serverTime st1) None
             (union_into (items_of (req_data req)) (items_of (req_data req'))))].
Proof.
  intros Hpast Hpath Happ Happ' Hkey Htiny Hdata Hvalid Hne' Hdata' Hvalid' Hlatest st1.
  subst st1.
  rewrite (handleRequest_start hdrs req fp st Hfp Happ Hpath Hlatest).
  rewrite (proj2 (set_refuses_false _ _));
    [|cbn [apiKey tinyCode dataBatches]; repeat split; try assumption;
      now apply items_of_defined].
  unfold store_of. simpl.
  set (new := mkSessionDoc (req_websiteName req) fp
                (mkSessionData (req_apiKey req) (req_tinyCode req) (serverTime st)
                   (serverTime st) None (items_of (req_data req)))).
  assert (Hnew : (docs st ++ [new]) !! length (docs st) = Some new).
  { rewrite lookup_app_r by lia. now rewrite Nat.sub_diag. }
  set (st1 := elapse dt (mkFirestore (docs st ++ [new]) (S (serverTime st)) (rules st))).
  destruct (handleRequest_append hdrs' req' fp st1 Hfp' (length (docs st)) (doc_data new)
              Happ')
    as (doc0 & Hdoc0 & _ & _ & ->).
  - rewrite Hw. unfold st1, elapse. simpl. now apply latest_after_create.
  - reflexivity.
  - simpl in Hdoc0. assert (doc0 = new) by congruence. subst doc0.
    rewrite (arrayUnion_accepts _ st1 Hne' (items_of_defined _ Hdata') Hvalid'). simpl.
    split; [reflexivity|].
    rewrite insert_app_r_alt by lia. now rewrite Nat.sub_diag.
Qed.

(** X15. Sending the same data again to an open session adds nothing: after
    a second append with the same [data], of at least one item, without
    [undefined] and allowed by the rules of the store, the session has the
    [dataBatches] it had after the first. *)
Theorem resend_same_data (ref : nat) (d : SessionData) :
  is_append req = true -> is_append req' = true ->
  req_data req' = req_data req ->
  items_of (req_data req) <> [] -> has_undefined (req_data req) = false ->
  valid_elements (rules st) (items_of (req_data req)) = true ->
  latest st (req_websiteName req) fp = Some (ref, d) -> endedAt d = None ->
  let st1 := elapse dt (store_of (handleRequest hdrs req st)) in
  exists d1 d2,
    docs st1 !! ref = Some d1 /\
    docs (store_of (handleRequest hdrs' req' st1)) !! ref = Some d2 /\
    dataBatches (doc_data d2) = dataBatches (doc_data d1) /\
    response_of (handleRequest hdrs' req' st1) = recorded hdrs' false.
Proof.
  intros Happ Happ' Hsame Hne Hdef Hvalid Hlatest Hopen st1. subst st1.
  destruct (latest_Some _ _ _ _ _ Hlatest) as (doc & Hdoc & <- & _).
  rewrite (handleRequest_append_open ref doc Happ Hlatest Hdoc Hopen Hne Hdef Hvalid).
  unfold store_of, response_of. cbn [fst snd].
  pose proof (lookup_lt_Some _ _ _ Hdoc) as Hlt.
  set (d1 := mkSessionDoc (doc_website doc) (doc_fingerprint doc)
               (mkSessionData (apiKey (doc_data doc)) (tinyCode (doc_data doc))
                  (startedAt (doc_data doc)) (serverTime st) None
                  (union_into (dataBatches (doc_data doc)) (items_of (req_data req))))).
  assert (Hd1 : <[ref := d1]> (docs st) !! ref = Some d1)
    by now apply list_lookup_insert_eq.
  set (st1 := elapse dt (mkFirestore (<[ref := d1]> (docs st)) (S (serverTime st))
                           (rules st))).
  destruct (handleRequest_append hdrs' req' fp st1 Hfp' ref (doc_data d1) Happ')
    as (doc0 & Hdoc0 & _ & _ & ->).
  - rewrite Hw. now apply (latest_after_update st _ _ ref doc).
  - reflexivity.
  - simpl in Hdoc0. assert (doc0 = d1) by congruence. subst doc0.
    rewrite Hsame, (arrayUnion_accepts _ st1 Hne (items_of_defined _ Hdef) Hvalid).
    simpl.
    eexists d1, _. split; [exact Hd1|]. split.
    + apply list_lookup_insert_eq. now rewrite length_insert.
    + simpl. split; [apply union_into_idem | reflexivity].
Qed.

End TwoRequests.

Lemma close_twice_rejected_witness :
  handleRequest [] (sample_request (JStr "42") JUndefined (JStr "end"))
    (elapse 5 (store_of (handleRequest [] (sample_request (JNum 42) JUndefined (JStr "end"))
                           (sample_store 1 None 2)))) =
    (mkResponse 400 [] (error_body SessionAlreadyEnded),
     elapse 5 (store_of (handleRequest [] (sample_request (JNum 42) JUndefined (JStr "end"))
                           (sample_store 1 None 2))),
     [QueryLatest (JStr "site") "42"; QueryLatest (JStr "site") "42"]).
Proof.
  exact (close_twice_rejected [] [] (sample_request (JNum 42) JUndefined (JStr "end"))
           (sample_request (JStr "42") JUndefined (JStr "end")) "42"
           (sample_store 1 None 2) 5 eq_refl eq_refl eq_refl 0 (sample_session 1 None)
           eq_refl eq_refl eq_refl eq_refl).
Defined.

Lemma append_after_close_starts_new_witness :
  response_of
    (handleRequest [] (sample_request (JStr "42") (JStr "scroll") JUndefined)
       (elapse 5 (store_of (handleRequest []
                              (sample_request (JNum 42) JUndefined (JStr "end"))
                              (sample_store 1 None 2))))) = recorded [] true.
Proof.
  exact (proj1 (append_after_close_starts_new [] []
                  (sample_request (JNum 42) JUndefined (JStr "end"))
                  (sample_request (JStr "42") (JStr "scroll") JUndefined) "42"
                  (sample_store 1 None 2) 5 eq_refl eq_refl eq_refl 0 (sample_session 1 None)
                  eq_refl eq_refl eq_refl eq_refl eq_refl eq_refl eq_refl eq_refl)).
Defined.

Lemma append_after_start_same_session_witness :
  docs (store_of
          (handleRequest [] (sample_request (JStr "42") (JStr "scroll") JUndefined)
             (elapse 5 (store_of (handleRequest []
                                    (sample_request (JNum 42) (JStr "click") JUndefined)
                                    (sample_store 1 (Some 1) 2)))))) =
    sample_docs 1 (Some 1) ++
    [mkSessionDoc (JStr "site") "42"
       (mkSessionData (JStr "key") (JStr "tc") 2 8 None [JStr "click"; JStr "scroll"])].
Proof.
  refine (proj2 (append_after_start_same_session [] []
                   (sample_request (JNum 42) (JStr "click") JUndefined)
                   (sample_request (JStr "42") (JStr "scroll") JUndefined) "42"
                   (sample_store 1 (Some 1) 2) 5 eq_refl eq_refl eq_refl _ _ eq_refl eq_refl
                   eq_refl eq_refl eq_refl eq_refl _ eq_refl eq_refl _)).
  - intros [|i] d [= <-]. simpl. lia.
  - discriminate.
  - discriminate.
  - right. now exists 0, (sample_session 1 (Some 1)), 1.
Defined.

Lemma resend_same_data_witness :
  exists d1 d2,
    docs (elapse 5 (store_of (handleRequest []
                                (sample_request (JNum 42) (JStr "scroll") JUndefined)
                                (sample_store 1 None 2)))) !! 0 = Some d1 /\
    docs (store_of
            (handleRequest [] (sample_request (JStr "42") (JStr "scroll") JUndefined)
               (elapse 5 (store_of (handleRequest []
                                      (sample_request (JNum 42) (JStr "scroll") JUndefined)
                                      (sample_store 1 None 2)))))) !! 0 = Some d2 /\
    dataBatches (doc_data d2) = dataBatches (doc_data d1) /\
    response_of
      (handleRequest [] (sample_request (JStr "42") (JStr "scroll") JUndefined)
         (elapse 5 (store_of (handleRequest []
                                (sample_request (JNum 42) (JStr "scroll") JUndefined)
                                (sample_store 1 None 2))))) = recorded [] false.
Proof.
  refine (resend_same_data [] [] (sample_request (JNum 42) (JStr "scroll") JUndefined)
           (sample_request (JStr "42") (JStr "scroll") JUndefined) "42"
           (sample_store 1 None 2) 5 eq_refl eq_refl eq_refl 0 (sample_session 1 None)
           eq_refl eq_refl eq_refl _ eq_refl eq_refl eq_refl eq_refl).
  discriminate.
Defined.


(** ** Refusals and the rules of the store *)

(** X20. In every sequential execution from a store without document,
    whatever the rules of the store and the time on its clock, at most one
    session of each sub-collection is open, also when its sessions are filed
    under website names and fingerprints that cut its path differently; each
    session started no later than its last activity, and is filed under a
    trimmed, non-empty fingerprint. *)
Theorem run_from_any_empty_store (JSON_parse : string -> option JsVal)
    (NODE_ENV : option string) (st : Firestore) (steps : list (nat * Event)) :
  docs st = [] ->
  let st' := run JSON_parse NODE_ENV st steps in
  (forall i j di dj,
     docs st' !! i = Some di -> docs st' !! j = Some dj ->
     doc_path di = doc_path dj -> is_open di -> is_open dj -> i = j)
  /\ times_ok st' /\ keys_ok st' /\ rules st' = rules st.
Proof.
  intros Hempty st'. subst st'.
  assert (Hnone : forall i d, docs st !! i = Some d -> False).
  { intros i d. rewrite Hempty, lookup_nil. discriminate. }
  split; [|split; [|split]].
  - intros i j di dj. apply store_inv_one_open_per_path, store_inv_run.
    repeat split; intros ? *; intros; exfalso; eauto.
  - apply run_invariant.
    + intros dt s Hok i d Hd. destruct (Hok i d Hd) as (? & ? & ?).
      repeat split; auto. simpl. lia.
    + apply times_ok_effect.
    + intros i d Hd. destruct (Hnone i d Hd).
  - apply run_invariant.
    + intros dt s Hok. exact Hok.
    + apply keys_ok_effect.
    + intros i d Hd. destruct (Hnone i d Hd).
  - apply (run_invariant (fun s => rules s = rules st)); [auto| |reflexivity].
    intros req s s' H Hs. destruct H; exact Hs.
Qed.

Lemma run_from_any_empty_store_witness :
  rules (run parse_samples None (mkFirestore [] 7 (mkRules (fun _ => false) (fun _ => true)))
           [(1, sample_event "data" "click")]) =
    mkRules (fun _ => false) (fun _ => true).
Proof.
  exact (proj2 (proj2 (proj2 (run_from_any_empty_store parse_samples None
            (mkFirestore [] 7 (mkRules (fun _ => false) (fun _ => true)))
            [(1, sample_event "data" "click")] eq_refl)))).
Defined.

(** X21. A request whose website name and fingerprint do not name a
    sub-collection (the website name is missing, is not a string, is empty,
    or the path has a double slash or the wrong number of segments) is
    answered by the catch-all, and no call reaches the store. *)
Theorem invalid_path_internal_error (hdrs : Headers) (req : Request) (fp : string)
    (st : Firestore) :
  normalizeFingerprint (req_fingerprint req) = inr fp ->
  (typeof_string (req_websiteName req) = false \/ req_websiteName req = JStr ""
   \/ sessionsCollRef (req_websiteName req) fp = None) ->
  handleRequest hdrs req st = (mkResponse 500 hdrs (StringifyError InvalidResourcePath), st, []).
Proof.
  intros Hfp H. apply (handleRequest_invalid_path hdrs req fp st Hfp).
  destruct H as [H | [-> | H]]; [|reflexivity|exact H].
  destruct (req_websiteName req); try reflexivity. discriminate.
Qed.

Lemma invalid_path_internal_error_witness :
  handleRequest []
    (mkRequest (JStr "key") (JStr "tc") (JNum 42) (JStr "click") JUndefined JUndefined)
    (sample_store 1 None 2) =
    (mkResponse 500 [] (StringifyError InvalidResourcePath), sample_store 1 None 2, []).
Proof.
  apply (invalid_path_internal_error []
           (mkRequest (JStr "key") (JStr "tc") (JNum 42) (JStr "click") JUndefined JUndefined)
           "42" (sample_store 1 None 2)).
  - reflexivity.
  - left. reflexivity.
Defined.

(** X22. An append whose [data] is the empty array is refused when a session
    is open, since [arrayUnion] needs an element: the catch-all answers and
    the session is left as it is; the same request starts a session without
    item when the sub-collection has no session and [set] accepts the
    document. *)
Theorem append_without_item (hdrs : Headers) (req : Request) (fp : string)
    (st : Firestore) :
  normalizeFingerprint (req_fingerprint req) = inr fp ->
  req_data req = JArr [] ->
  truthy (req_action req) = false \/ req_action req = JStr "append" ->
  let w := req_websiteName req in
  let now := serverTime st in
  (forall ref d, latest st w fp = Some (ref, d) -> endedAt d = None ->
     handleRequest hdrs req st =
       (mkResponse 500 hdrs (StringifyError ArrayUnionWithoutElement), st,
        [QueryLatest w fp]))
  /\ (sessionsCollRef w fp <> None -> latest st w fp = None ->
      set_refuses st (mkSessionData (req_apiKey req) (req_tinyCode req) now now None [])
        = false ->
      handleRequest hdrs req st =
        (recorded hdrs true,
         mkFirestore
           (docs st ++
            [mkSessionDoc w fp
               (mkSessionData (req_apiKey req) (req_tinyCode req) now now None [])])
           (S now) (rules st),
         [QueryLatest w fp; DocSet (length (docs st))])).
Proof.
  intros Hfp Hdata Haction w now.
  assert (Happ : is_append req = true).
  { unfold is_append. rewrite Hdata. simpl.
    destruct Haction as [-> | ->]; reflexivity. }
  split.
  - intros ref d Hlatest Hopen.
    destruct (handleRequest_append hdrs req fp st Hfp ref d Happ Hlatest Hopen)
      as (doc & _ & _ & _ & ->).
    rewrite Hdata. reflexivity.
  - intros Hpath Hnone Hset.
    rewrite (handleRequest_start hdrs req fp st Hfp Happ Hpath (or_introl Hnone)).
    rewrite Hdata. cbn [items_of isArray]. fold now. now rewrite Hset.
Qed.

Lemma append_without_item_witness :
  handleRequest [] (sample_request (JNum 42) (JArr []) JUndefined) (sample_store 1 None 2) =
    (mkResponse 500 [] (StringifyError ArrayUnionWithoutElement), sample_store 1 None 2,
     [QueryLatest (JStr "site") "42"]).
Proof.
  refine (proj1 (append_without_item [] (sample_request (JNum 42) (JArr []) JUndefined) "42"
                   (sample_store 1 None 2) eq_refl eq_refl (or_introl eq_refl))
            0 (sample_session 1 None) eq_refl eq_refl).
Defined.

(** The store compares maps regardless of the order of their keys: the union
    does not add a map that differs from a stored one by that order only. *)
Example union_into_key_order :
  union_into [JObj [("x", JNum 1); ("y", JNum 2)]]
    [JObj [("y", JNum 2); ("x", JNum 1)]; JObj [("x", JNum 1)]] =
  [JObj [("x", JNum 1); ("y", JNum 2)]; JObj [("x", JNum 1)]].
Proof. reflexivity. Qed.

(** ** Spellings of a fingerprint *)

Lemma trimEnd_app_all_whitespace (s q : string) :
  all_whitespace q = true -> trimEnd (s ++ q) = trimEnd s.
Proof.
  intros Hq. induction s as [|c s IH]; simpl.
  - now apply trimEnd_all_whitespace.
  - now rewrite IH.
Qed.

Lemma trim_app_all_whitespace (s q : string) :
  all_whitespace q = true -> trim (s ++ q) = trim s.
Proof.
  intros Hq. unfold trim. induction s as [|c s IH]; simpl.
  - now rewrite (trimStart_only_whitespace q Hq).
  - destruct (is_whitespace c); [exact IH|].
    change (String c (s ++ q)) with (String c s ++ q)%string.
    now apply trimEnd_app_all_whitespace.
Qed.

Lemma trim_surrounded (p s q : string) :
  all_whitespace p = true -> all_whitespace q = true -> trim (p ++ s ++ q) = trim s.
Proof.
  intros Hp Hq. rewrite <- (trim_app_all_whitespace s q Hq).
  unfold trim. now rewrite (trimStart_all_whitespace p _ Hp).
Qed.

Lemma handleRequest_same_fingerprint (hdrs : Headers) (req : Request) (v v' : JsVal)
    (st : Firestore) :
  normalizeFingerprint v = normalizeFingerprint v' ->
  handleRequest hdrs (with_fingerprint req v) st =
  handleRequest hdrs (with_fingerprint req v') st.
Proof. intros H. unfold handleRequest, tryRequest. simpl. now rewrite H. Qed.

(** X16. The spelling of the fingerprint does not matter: the request has
    the same response and the same effect on the store whether its
    fingerprint is a string or that string with white space around it,
    whether it is a safe integer or the decimal string form of that integer,
    and whether it is another number or the string [toString] prints for
    it. *)
Theorem fingerprint_spelling_irrelevant (hdrs : Headers) (req : Request) (st : Firestore) :
  (forall s p q : string,
     all_whitespace p = true -> all_whitespace q = true ->
     handleRequest hdrs (with_fingerprint req (JStr (p ++ s ++ q))) st =
     handleRequest hdrs (with_fingerprint req (JStr s)) st)
  /\ (forall (n : Z) (s : string),
        is_safe_integer n = true -> decimal_string_form n s ->
        handleRequest hdrs (with_fingerprint req (JNum n)) st =
        handleRequest hdrs (with_fingerprint req (JStr s)) st)
  /\ (forall text : string,
        handleRequest hdrs (with_fingerprint req (JFloat text)) st =
        handleRequest hdrs (with_fingerprint req (JStr text)) st).
Proof.
  split; [|split].
  - intros s p q Hp Hq. apply handleRequest_same_fingerprint.
    now rewrite !normalizeFingerprint_string, (trim_surrounded p s q Hp Hq).
  - intros n s _ Hs%Number_toString_decimal. subst s.
    apply handleRequest_same_fingerprint.
    rewrite normalizeFingerprint_number, normalizeFingerprint_string, trim_Number_toString.
    destruct (String.eqb_spec (Number_toString n) "") as [E|_]; [|reflexivity].
    now destruct (Number_toString_nonempty n).
  - intros text. apply handleRequest_same_fingerprint, normalizeFingerprint_float.
Qed.

Lemma fingerprint_spelling_irrelevant_witness :
  handleRequest [] (with_fingerprint (sample_request JNull (JStr "scroll") JUndefined)
                      (JStr "  42 ")) (sample_store 1 None 2) =
  handleRequest [] (with_fingerprint (sample_request JNull (JStr "scroll") JUndefined)
                      (JStr "42")) (sample_store 1 None 2)
  /\ handleRequest [] (with_fingerprint (sample_request JNull (JStr "scroll") JUndefined)
                         (JNum 42)) (sample_store 1 None 2) =
     handleRequest [] (with_fingerprint (sample_request JNull (JStr "scroll") JUndefined)
                         (JStr "42")) (sample_store 1 None 2).
Proof.
  split.
  - exact (proj1 (fingerprint_spelling_irrelevant []
                    (sample_request JNull (JStr "scroll") JUndefined) (sample_store 1 None 2))
             "42" "  " " " eq_refl eq_refl).
  - exact (proj1 (proj2 (fingerprint_spelling_irrelevant []
                    (sample_request JNull (JStr "scroll") JUndefined) (sample_store 1 None 2)))
             42%Z "42" eq_refl eq_refl).
Defined.

(** X17. Two fingerprints sent as different safe integers are normalised to
    different keys. *)
Theorem numeric_fingerprints_distinct (n m : Z) :
  is_safe_integer n = true -> is_safe_integer m = true ->
  n <> m -> normalizeFingerprint (JNum n) <> normalizeFingerprint (JNum m).
Proof.
  intros _ _ Hne. rewrite !normalizeFingerprint_number. intros [= H].
  now apply Hne, Number_toString_inj.
Qed.

Lemma numeric_fingerprints_distinct_witness :
  normalizeFingerprint (JNum 42) <> normalizeFingerprint (JNum (-42)).
Proof.
  apply (numeric_fingerprints_distinct 42 (-42)); [reflexivity | reflexivity | discriminate].
Defined.

(** ** The initialisation *)

(** Induction on strings two characters at a time. *)
Lemma string_pair_ind (P : string -> Prop) :
  P "" -> (forall c, P (String c "")) ->
  (forall c d rest, P rest -> P (String d rest) -> P (String c (String d rest))) ->
  forall s, P s.
Proof.
  intros H0 H1 H2 s.
  assert (H : P s /\ forall c, P (String c s)).
  { induction s as [|d rest [IH IH']]; [now split|].
    split; [apply IH'|]. intros c. apply H2; [exact IH | apply IH']. }
  exact (proj1 H).
Qed.

Lemma has_escaped_newline_cons (c : ascii) (s : string) :
  has_escaped_newline (String c s) =
    match s with
    | EmptyString => false
    | String d _ => (Ascii.eqb c backslash && Ascii.eqb d "n") || has_escaped_newline s
    end.
Proof. reflexivity. Qed.

Lemma replaceEscapedNewlines_pair (c d : ascii) (rest : string) :
  replaceEscapedNewlines (String c (String d rest)) =
    if Ascii.eqb c backslash && Ascii.eqb d "n"
    then String line_feed (replaceEscapedNewlines rest)
    else String c (replaceEscapedNewlines (String d rest)).
Proof. reflexivity. Qed.

Lemma replaceEscapedNewlines_head (d : ascii) (rest : string) :
  exists h t, replaceEscapedNewlines (String d rest) = String h t /\
    (h = d \/ h = line_feed).
Proof.
  destruct rest as [|e rest]; simpl; [now exists d, ""; auto|].
  destruct (Ascii.eqb d backslash && Ascii.eqb e "n"); eexists _, _; eauto.
Qed.

Lemma replaceEscapedNewlines_clean (key : string) :
  has_escaped_newline (replaceEscapedNewlines key) = false.
Proof.
  induction key as [|c|c d rest IHrest IHtl] using string_pair_ind; try reflexivity.
  rewrite replaceEscapedNewlines_pair.
  destruct (Ascii.eqb c backslash && Ascii.eqb d "n") eqn:E.
  - rewrite has_escaped_newline_cons.
    destruct (replaceEscapedNewlines rest); [reflexivity|]. exact IHrest.
  - rewrite has_escaped_newline_cons.
    destruct (replaceEscapedNewlines_head d rest) as (h & t & Heq & Hh).
    rewrite Heq in *. rewrite IHtl, orb_false_r.
    destruct Hh as [-> | ->]; [exact E|].
    destruct (Ascii.eqb c backslash); reflexivity.
Qed.

Lemma replaceEscapedNewlines_id (key : string) :
  has_escaped_newline key = false -> replaceEscapedNewlines key = key.
Proof.
  induction key as [|c tl IH]; [reflexivity|].
  destruct tl as [|d rest]; [reflexivity|].
  rewrite has_escaped_newline_cons. intros [E H]%orb_false_iff.
  rewrite replaceEscapedNewlines_pair. rewrite E. f_equal. now apply IH.
Qed.

Lemma replaceEscapedNewlines_length (key : string) :
  String.length (replaceEscapedNewlines key) <= String.length key.
Proof.
  induction key as [|c|c d rest IHrest IHtl] using string_pair_ind; try reflexivity.
  rewrite replaceEscapedNewlines_pair.
  destruct (Ascii.eqb c backslash && Ascii.eqb d "n"); simpl in *; lia.
Qed.

(** X18. After the replacement of line 12 no backslash of the private key is
    followed by [n]; a key without such a pair is unchanged, so that the
    replacement is idempotent; and the key never gets longer. *)
Theorem replaceEscapedNewlines_spec (key : string) :
  has_escaped_newline (replaceEscapedNewlines key) = false
  /\ (has_escaped_newline key = false -> replaceEscapedNewlines key = key)
  /\ replaceEscapedNewlines (replaceEscapedNewlines key) = replaceEscapedNewlines key
  /\ String.length (replaceEscapedNewlines key) <= String.length key.
Proof.
  repeat split.
  - apply replaceEscapedNewlines_clean.
  - apply replaceEscapedNewlines_id.
  - apply replaceEscapedNewlines_id, replaceEscapedNewlines_clean.
  - apply replaceEscapedNewlines_length.
Qed.

Lemma replaceEscapedNewlines_spec_witness :
  replaceEscapedNewlines "-----BEGIN KEY-----" = "-----BEGIN KEY-----".
Proof.
  exact (proj1 (proj2 (replaceEscapedNewlines_spec "-----BEGIN KEY-----")) eq_refl).
Defined.


(** What [admin.credential.cert] accepts. *)
Lemma cert_Some (privateKeyFromPem : string -> bool) (account credential : ServiceAccount) :
  cert privateKeyFromPem account = Some credential <->
  credential = account /\
  isNonEmptyString (projectId account) = true /\
  isNonEmptyString (clientEmail account) = true /\
  privateKey account <> "" /\
  privateKeyFromPem (privateKey account) = true.
Proof.
  unfold cert. simpl.
  destruct (isNonEmptyString (projectId account));
    [|split; [discriminate | intros (_ & H & _); discriminate]].
  destruct (String.eqb_spec (privateKey account) "") as [E | E];
    [split; [discriminate | intros (_ & _ & _ & H & _); contradiction]|].
  destruct (isNonEmptyString (clientEmail account));
    [|split; [discriminate | intros (_ & _ & H & _); discriminate]].
  destruct (privateKeyFromPem (privateKey account));
    [|split; [discriminate | intros (_ & _ & _ & _ & H); discriminate]].
  simpl. split; [intros [= <-]; auto | intros (-> & _); reflexivity].
Qed.

(** X19. Loading the module initialises the SDK once: when an app exists
    the environment is not read and the apps stay as they are; otherwise
    loading succeeds exactly when [FIREBASE_PRIVATE_KEY] is set, the
    credential has a project identifier, a client e-mail and a private key
    that are not empty, and the private key, once its escaped line breaks
    are replaced, is read as a PEM key; it then adds a single app, whose
    private key has no escaped line break; after a successful load, a second
    load changes nothing whatever the environment. *)
Theorem initializeAdmin_once (privateKeyFromPem : string -> bool) (env env' : Environment)
    (apps : list ServiceAccount) :
  (apps <> [] -> initializeAdmin privateKeyFromPem env apps = Some apps)
  /\ (forall apps',
        initializeAdmin privateKeyFromPem env [] = Some apps' <->
        exists key,
          FIREBASE_PRIVATE_KEY env = Some key /\
          isNonEmptyString (FIREBASE_PROJECT_ID env) = true /\
          isNonEmptyString (FIREBASE_CLIENT_EMAIL env) = true /\
          replaceEscapedNewlines key <> "" /\
          privateKeyFromPem (replaceEscapedNewlines key) = true /\
          apps' = [mkServiceAccount (FIREBASE_PROJECT_ID env) (FIREBASE_CLIENT_EMAIL env)
                     (replaceEscapedNewlines key)])
  /\ (forall apps', initializeAdmin privateKeyFromPem env apps = Some apps' ->
        initializeAdmin privateKeyFromPem env' apps' = Some apps' /\
        (apps = [] ->
         exists key, FIREBASE_PRIVATE_KEY env = Some key /\
           apps' = [mkServiceAccount (FIREBASE_PROJECT_ID env) (FIREBASE_CLIENT_EMAIL env)
                      (replaceEscapedNewlines key)] /\
           has_escaped_newline (replaceEscapedNewlines key) = false)).
Proof.
  assert (Hload : forall apps',
            initializeAdmin privateKeyFromPem env [] = Some apps' <->
            exists key,
              FIREBASE_PRIVATE_KEY env = Some key /\
              isNonEmptyString (FIREBASE_PROJECT_ID env) = true /\
              isNonEmptyString (FIREBASE_CLIENT_EMAIL env) = true /\
              replaceEscapedNewlines key <> "" /\
              privateKeyFromPem (replaceEscapedNewlines key) = true /\
              apps' = [mkServiceAccount (FIREBASE_PROJECT_ID env)
                         (FIREBASE_CLIENT_EMAIL env) (replaceEscapedNewlines key)]).
  { intros apps'. unfold initializeAdmin. simpl.
    destruct (FIREBASE_PRIVATE_KEY env) as [key|];
      [|split; [discriminate | intros (key & H & _); discriminate]].
    destruct (cert privateKeyFromPem _) as [credential|] eqn:E.
    - apply cert_Some in E as (-> & Hp & Hc & Hk & Hpem). simpl in *. split.
      + intros [= <-]. exists key. repeat split; assumption.
      + intros (key' & [= <-] & _ & _ & _ & _ & ->). reflexivity.
    - split; [discriminate|].
      intros (key' & [= <-] & Hp & Hc & Hk & Hpem & _).
      assert (H : cert privateKeyFromPem
                    (mkServiceAccount (FIREBASE_PROJECT_ID env) (FIREBASE_CLIENT_EMAIL env)
                       (replaceEscapedNewlines key)) =
                  Some (mkServiceAccount (FIREBASE_PROJECT_ID env)
                          (FIREBASE_CLIENT_EMAIL env) (replaceEscapedNewlines key))).
      { apply cert_Some. repeat split; assumption. }
      congruence. }
  split; [|split].
  - intros Hne. destruct apps; [contradiction|reflexivity].
  - exact Hload.
  - intros apps' H. destruct apps as [|a apps].
    + apply Hload in H as (key & Hkey & _ & _ & _ & _ & ->).
      split; [reflexivity|]. intros _. exists key.
      repeat split; [exact Hkey | apply replaceEscapedNewlines_clean].
    + injection H as <-. split; [reflexivity|]. discriminate.
Qed.

Lemma initializeAdmin_once_witness :
  initializeAdmin (fun _ => true) (mkEnvironment None None None)
    [mkServiceAccount (Some "project") (Some "mail") "key"] =
  Some [mkServiceAccount (Some "project") (Some "mail") "key"].
Proof.
  refine (proj1 (initializeAdmin_once (fun _ => true) (mkEnvironment None None None)
                   (mkEnvironment None None None)
                   [mkServiceAccount (Some "project") (Some "mail") "key"]) _).
  discriminate.
Defined.

(** Loading with a private key and no project identifier throws. *)
Example initializeAdmin_without_project :
  initializeAdmin (fun _ => true) (mkEnvironment None (Some "mail") (Some "key")) [] = None.
Proof. reflexivity. Qed.

Example replaceEscapedNewlines_example :
  replaceEscapedNewlines "BEGIN\nMII\\nabc" =
    ("BEGIN" ++ String line_feed ("MII" ++ String backslash (String line_feed "abc")))%string.
Proof. reflexivity. Qed.
